(** * SPB accelerometer sensor driver (SpbAccelerometerV2): client arbitration,
      data-update mode, batch property setting and data arrival.

    A shallow embedding of [ClientManager.cpp], [SensorDevice.cpp] and the
    parts of [AccelerometerDevice.cpp] they call, followed by the properties
    the specification states about them.

    Conventions of the embedding
    - [HRESULT] is the signed 32-bit value, kept in [Z]; [SUCCEEDED] is [0 <= hr].
    - [ULONG]/[DWORD] are kept in [Z]; increments and decrements wrap modulo 2^32.
    - [DOUBLE] and [FLOAT] are IEEE-754 values ([PrimFloat.float]); the C
      comparison [<] is [PrimFloat.ltb].
    - An [IPortableDeviceValues] collection is an ordered key/value list:
      [SetValue] overwrites the entry of a key already present (in place) and
      appends a new one otherwise; [GetAt] reads by position.
    - [std::map<IWDFFile*, CLIENT_ENTRY>] is a key-ordered association list,
      iterated from the smallest key.
    - [CoCreateInstance] and the collection methods are taken to succeed on
      valid arguments (no out-of-memory); hardware transfers succeed or fail as
      the environment script says.
    - Locks ([CriticalSection]) and tracing have no counterpart: every function
      is modelled as it runs under its own lock. *)

From Stdlib Require Import ZArith List Bool Lia Floats Uint63.
From Equations Require Import Equations.
Import ListNotations.
Open Scope Z_scope.

(* ===================================================================== *)
(** * Part I: the embedding                                               *)
(* ===================================================================== *)

(** ** Machine integers and status codes *)

Definition ULONG := Z.
Definition DWORD := Z.
Definition BYTE := Z.
Definition ULONG_MAX : ULONG := 4294967295.

(** Unsigned 32-bit wrap-around, as [x++] and [x--] on a [ULONG]. *)
Definition ulong (x : Z) : ULONG := x mod 4294967296.

Definition HRESULT := Z.

(** The signed reading of a 32-bit pattern. *)
Definition to_signed32 (x : Z) : Z :=
  let y := x mod 4294967296 in
  if y <? 2147483648 then y else y - 4294967296.

Definition S_OK : HRESULT := 0.
Definition S_FALSE : HRESULT := 1.
Definition E_UNEXPECTED : HRESULT := to_signed32 0x8000FFFF.
Definition E_POINTER : HRESULT := to_signed32 0x80004003.
Definition E_OUTOFMEMORY : HRESULT := to_signed32 0x8007000E.
Definition E_INVALIDARG : HRESULT := to_signed32 0x80070057.
Definition E_FAIL : HRESULT := to_signed32 0x80004005.

Definition FACILITY_WIN32 : Z := 7.

(** [HRESULT_FROM_WIN32(x)]: [x <= 0 ? x : (x & 0xFFFF) | (FACILITY_WIN32 << 16) | 0x80000000]. *)
Definition HRESULT_FROM_WIN32 (x : Z) : HRESULT :=
  if x <=? 0 then x
  else to_signed32
         (Z.lor (Z.lor (Z.land x 0xFFFF) (Z.shiftl FACILITY_WIN32 16)) 0x80000000).

Definition ERROR_FILE_NOT_FOUND : Z := 2.
Definition ERROR_NOT_SUPPORTED : Z := 50.
Definition ERROR_FILE_EXISTS : Z := 80.
Definition ERROR_NOT_FOUND : Z := 1168.
Definition ERROR_INVALID_STATE : Z := 5023.

Definition SUCCEEDED (hr : HRESULT) : bool := 0 <=? hr.
Definition FAILED (hr : HRESULT) : bool := hr <? 0.

(** ** Property keys *)

Definition GUID := Z.

Record PROPERTYKEY : Type := mkKey { fmtid : GUID; pid : DWORD }.

Definition IsEqualPropertyKey (a b : PROPERTYKEY) : bool :=
  (pid a =? pid b) && (fmtid a =? fmtid b).

(** Keys of the Windows SDK ([sensors.h], [PortableDevice.h]). *)
Definition SENSOR_PROPERTY_COMMON_GUID : GUID := 0x7F8383ECD3EC495CA8CFB8BBE85C2920.
Definition SENSOR_DATA_TYPE_COMMON_GUID : GUID := 0xDB5E0CF2CF1F4C18B46CD86011D62150.
Definition SENSOR_DATA_TYPE_MOTION_GUID : GUID := 0x3F8A69A207C54E48A965CD797AAB56D5.

Definition SENSOR_PROPERTY_STATE := mkKey SENSOR_PROPERTY_COMMON_GUID 3.
Definition SENSOR_PROPERTY_MIN_REPORT_INTERVAL := mkKey SENSOR_PROPERTY_COMMON_GUID 12.
Definition SENSOR_PROPERTY_CURRENT_REPORT_INTERVAL := mkKey SENSOR_PROPERTY_COMMON_GUID 13.
Definition SENSOR_PROPERTY_CHANGE_SENSITIVITY := mkKey SENSOR_PROPERTY_COMMON_GUID 14.
Definition SENSOR_DATA_TYPE_TIMESTAMP := mkKey SENSOR_DATA_TYPE_COMMON_GUID 2.
Definition SENSOR_DATA_TYPE_ACCELERATION_X_G := mkKey SENSOR_DATA_TYPE_MOTION_GUID 2.
Definition SENSOR_DATA_TYPE_ACCELERATION_Y_G := mkKey SENSOR_DATA_TYPE_MOTION_GUID 3.
Definition SENSOR_DATA_TYPE_ACCELERATION_Z_G := mkKey SENSOR_DATA_TYPE_MOTION_GUID 4.

Definition SENSOR_EVENT_DATA_UPDATED : GUID := 0x2ED0F2A4008741D387DB6773370B3C88.
Definition SENSOR_EVENT_STATE_CHANGED : GUID := 0xBFD960166BD74560AD34F2F6607E8F81.

(** [SensorState] of [sensorsapi.h]. *)
Definition SENSOR_STATE_READY : Z := 0.
Definition SENSOR_STATE_NOT_AVAILABLE : Z := 1.
Definition SENSOR_STATE_NO_DATA : Z := 2.

(** ** PROPVARIANT and IPortableDeviceValues *)

Set Warnings "-register-all".

(** The tagged union, one constructor per [vt] the driver uses.  [VT_UNKNOWN]
    carries the [IPortableDeviceValues] its [punkVal] points to. *)
Inductive PROPVARIANT : Type :=
| VT_EMPTY
| VT_NULL
| VT_R4 (fltVal : float)
| VT_R8 (dblVal : float)
| VT_UI4 (ulVal : ULONG)
| VT_ERROR (scode : HRESULT)
| VT_FILETIME (filetime : Z)
| VT_VECTOR_UI1 (caub : list BYTE)
| VT_UNKNOWN (punkVal : list (PROPERTYKEY * PROPVARIANT)).

Definition IPortableDeviceValues := list (PROPERTYKEY * PROPVARIANT).

(** [VARTYPE] codes of [wtypes.h]. *)
Definition vt (v : PROPVARIANT) : Z :=
  match v with
  | VT_EMPTY => 0
  | VT_NULL => 1
  | VT_R4 _ => 4
  | VT_R8 _ => 5
  | VT_ERROR _ => 10
  | VT_UNKNOWN _ => 13
  | VT_UI4 _ => 19
  | VT_FILETIME _ => 64
  | VT_VECTOR_UI1 _ => 4113
  end.

(** [pVar->ulVal].  Reading a member other than the one the tag names is
    outside the embedding and yields 0 here; no property below depends on it. *)
Definition get_ulVal (v : PROPVARIANT) : ULONG :=
  match v with VT_UI4 n => n | _ => 0 end.


Module PDV.

Definition GetCount (l : IPortableDeviceValues) : nat := length l.

Definition GetAt (i : nat) (l : IPortableDeviceValues) : option (PROPERTYKEY * PROPVARIANT) :=
  nth_error l i.

Fixpoint GetValue (key : PROPERTYKEY) (l : IPortableDeviceValues) : option PROPVARIANT :=
  match l with
  | [] => None
  | (k, v) :: r => if IsEqualPropertyKey key k then Some v else GetValue key r
  end.

Fixpoint SetValue (key : PROPERTYKEY) (var : PROPVARIANT) (l : IPortableDeviceValues)
  : IPortableDeviceValues :=
  match l with
  | [] => [(key, var)]
  | (k, v) :: r =>
      if IsEqualPropertyKey key k then (k, var) :: r else (k, v) :: SetValue key var r
  end.

Definition SetErrorValue (key : PROPERTYKEY) (hr : HRESULT) (l : IPortableDeviceValues)
  : IPortableDeviceValues :=
  SetValue key (VT_ERROR hr) l.

Definition keys (l : IPortableDeviceValues) : list PROPERTYKEY := map fst l.

End PDV.

(** The C macro [min(a,b)], [((a) < (b)) ? (a) : (b)], on floating-point values. *)
Definition cmin (a b : float) : float := if PrimFloat.ltb a b then a else b.

(** ** ClientManager.cpp *)

Definition IWDFFile := Z.
Definition nullptr : Z := 0.

Definition CURRENT_REPORT_INTERVAL_NOT_SET : ULONG := 0.

Inductive DATA_UPDATE_MODE : Type :=
| DataUpdateModeOff
| DataUpdateModePolling
| DataUpdateModeEventing.

Record CLIENT_ENTRY : Type := mkEntry {
  fSubscribed : bool;
  pDesiredSensitivityValues : IPortableDeviceValues;
  desiredReportInterval : ULONG
}.

(** [std::map<IWDFFile*, CLIENT_ENTRY>]: entries in increasing key order. *)
Definition CLIENT_MAP := list (IWDFFile * CLIENT_ENTRY).

Module ClientMap.

Fixpoint find (k : IWDFFile) (m : CLIENT_MAP) : option CLIENT_ENTRY :=
  match m with
  | [] => None
  | (k', e) :: r => if k =? k' then Some e else find k r
  end.

(** [m[k] = e]. *)
Fixpoint assign (k : IWDFFile) (e : CLIENT_ENTRY) (m : CLIENT_MAP) : CLIENT_MAP :=
  match m with
  | [] => [(k, e)]
  | (k', e') :: r =>
      if k <? k' then (k, e) :: (k', e') :: r
      else if k =? k' then (k, e) :: r
      else (k', e') :: assign k e r
  end.

Fixpoint erase (k : IWDFFile) (m : CLIENT_MAP) : CLIENT_MAP :=
  match m with
  | [] => []
  | (k', e') :: r => if k =? k' then r else (k', e') :: erase k r
  end.

Definition size (m : CLIENT_MAP) : Z := Z.of_nat (length m).

End ClientMap.

Record CClientManager : Type := mkCM {
  m_pClientList : CLIENT_MAP;
  m_ClientCount : ULONG;
  m_SubscriberCount : ULONG;
  m_spDefaultSensitivityValues : IPortableDeviceValues;
  m_spMinSensitivityValues : IPortableDeviceValues;
  m_defaultReportInterval : ULONG;
  m_minSupportedReportInterval : ULONG;
  m_minReportInterval : ULONG;
  m_minReportIntervalExplicitlySet : bool
}.

Definition set_ClientList (l : CLIENT_MAP) (cm : CClientManager) : CClientManager :=
  mkCM l (m_ClientCount cm) (m_SubscriberCount cm) (m_spDefaultSensitivityValues cm)
       (m_spMinSensitivityValues cm) (m_defaultReportInterval cm)
       (m_minSupportedReportInterval cm) (m_minReportInterval cm)
       (m_minReportIntervalExplicitlySet cm).

Definition set_ClientCount (n : ULONG) (cm : CClientManager) : CClientManager :=
  mkCM (m_pClientList cm) n (m_SubscriberCount cm) (m_spDefaultSensitivityValues cm)
       (m_spMinSensitivityValues cm) (m_defaultReportInterval cm)
       (m_minSupportedReportInterval cm) (m_minReportInterval cm)
       (m_minReportIntervalExplicitlySet cm).

Definition set_SubscriberCount (n : ULONG) (cm : CClientManager) : CClientManager :=
  mkCM (m_pClientList cm) (m_ClientCount cm) n (m_spDefaultSensitivityValues cm)
       (m_spMinSensitivityValues cm) (m_defaultReportInterval cm)
       (m_minSupportedReportInterval cm) (m_minReportInterval cm)
       (m_minReportIntervalExplicitlySet cm).

Definition set_MinSensitivityValues (l : IPortableDeviceValues) (cm : CClientManager)
  : CClientManager :=
  mkCM (m_pClientList cm) (m_ClientCount cm) (m_SubscriberCount cm)
       (m_spDefaultSensitivityValues cm) l (m_defaultReportInterval cm)
       (m_minSupportedReportInterval cm) (m_minReportInterval cm)
       (m_minReportIntervalExplicitlySet cm).

Definition set_minReportInterval (n : ULONG) (b : bool) (cm : CClientManager)
  : CClientManager :=
  mkCM (m_pClientList cm) (m_ClientCount cm) (m_SubscriberCount cm)
       (m_spDefaultSensitivityValues cm) (m_spMinSensitivityValues cm)
       (m_defaultReportInterval cm) (m_minSupportedReportInterval cm) n b.

(** The constructor: every counter 0, no collections yet. *)
Definition CClientManager_new : CClientManager :=
  mkCM [] 0 0 [] [] 0 0 0 false.

(** [CClientManager::CopyValues]: every source entry is set in the target. *)
Fixpoint CopyValues_from (src : IPortableDeviceValues) (tgt : IPortableDeviceValues)
  : IPortableDeviceValues :=
  match src with
  | [] => tgt
  | (key, var) :: r => CopyValues_from r (PDV.SetValue key var tgt)
  end.

Definition CopyValues (pSourceValues pTargetValues : IPortableDeviceValues)
  : HRESULT * IPortableDeviceValues :=
  (S_OK, CopyValues_from pSourceValues pTargetValues).

(** *** RecalculateProperties *)

(** First loop: [for (i = 0; i < sensitivityCount; i++)], every key of the
    minimum collection is set to [VT_NULL]. *)
Fixpoint reset_loop (n i : nat) (mins : IPortableDeviceValues) : IPortableDeviceValues :=
  match n with
  | O => mins
  | S n' =>
      let mins' :=
        match PDV.GetAt i mins with
        | Some (key, _) => PDV.SetValue key VT_NULL mins
        | None => mins
        end in
      reset_loop n' (S i) mins'
  end.

(** The body of the inner loop for one client value [var] (not [VT_NULL]):
    fold it into the running minimum of its key. *)
Definition fold_sensitivity (key : PROPERTYKEY) (var : PROPVARIANT)
    (mins : IPortableDeviceValues) : HRESULT * IPortableDeviceValues :=
  match PDV.GetValue key mins with
  | None => (HRESULT_FROM_WIN32 ERROR_NOT_FOUND, mins)
  | Some varMin =>
      match varMin with
      | VT_NULL =>
          (* Use client's value. *)
          (S_OK, PDV.SetValue key var mins)
      | VT_R4 m =>
          (* var.fltVal = min(varMin.fltVal, var.fltVal); a client value of
             another tag is left as it is (see [get_ulVal]) *)
          let var' := match var with VT_R4 f => VT_R4 (cmin m f) | _ => var end in
          (S_OK, PDV.SetValue key var' mins)
      | VT_R8 m =>
          (* var.dblVal = min(varMin.dblVal, var.dblVal) *)
          let var' := match var with VT_R8 d => VT_R8 (cmin m d) | _ => var end in
          (S_OK, PDV.SetValue key var' mins)
      | _ => (HRESULT_FROM_WIN32 ERROR_NOT_SUPPORTED, mins)
      end
  end.

(** Inner loop: [for (i = 0; SUCCEEDED(hr) && i < count; i++)] over one client's
    desired values (the collection is only read). *)
Fixpoint client_sensitivity_loop (vals : IPortableDeviceValues)
    (mins : IPortableDeviceValues) : HRESULT * IPortableDeviceValues :=
  match vals with
  | [] => (S_OK, mins)
  | (key, var) :: r =>
      match var with
      | VT_NULL => client_sensitivity_loop r mins
      | _ =>
          let (hr, mins') := fold_sensitivity key var mins in
          if SUCCEEDED hr then client_sensitivity_loop r mins' else (hr, mins')
      end
  end.

(** Outer loop: [while (SUCCEEDED(hr) && iter != m_pClientList.end())]. *)
Fixpoint client_loop (clients : CLIENT_MAP) (cm : CClientManager)
  : HRESULT * CClientManager :=
  match clients with
  | [] => (S_OK, cm)
  | (_, entry) :: r =>
      let (hr, mins) :=
        client_sensitivity_loop (pDesiredSensitivityValues entry)
                                (m_spMinSensitivityValues cm) in
      let cm := set_MinSensitivityValues mins cm in
      if SUCCEEDED hr then
        (* If the client has set a lower report interval, update the minimum *)
        let cm :=
          if negb (desiredReportInterval entry =? CURRENT_REPORT_INTERVAL_NOT_SET)
             && (desiredReportInterval entry <? m_minReportInterval cm)
          then set_minReportInterval (desiredReportInterval entry) true cm
          else cm in
        client_loop r cm
      else (hr, cm)
  end.

(** Last loop: [for (i = 0; SUCCEEDED(hr) && i < sensitivityCount; i++)], a key
    left at [VT_NULL] takes its default. *)
Fixpoint default_loop (n i : nat) (defaults mins : IPortableDeviceValues)
  : HRESULT * IPortableDeviceValues :=
  match n with
  | O => (S_OK, mins)
  | S n' =>
      match PDV.GetAt i mins with
      | None => (E_INVALIDARG, mins)
      | Some (key, VT_NULL) =>
          match PDV.GetValue key defaults with
          | None => (HRESULT_FROM_WIN32 ERROR_NOT_FOUND, mins)
          | Some var => default_loop n' (S i) defaults (PDV.SetValue key var mins)
          end
      | Some (_, _) => default_loop n' (S i) defaults mins
      end
  end.

Definition RecalculateProperties (cm : CClientManager) : HRESULT * CClientManager :=
  (* Initialize the minimum values *)
  let sensitivityCount := PDV.GetCount (m_spMinSensitivityValues cm) in
  let cm := set_MinSensitivityValues
              (reset_loop sensitivityCount 0 (m_spMinSensitivityValues cm)) cm in
  let cm := set_minReportInterval ULONG_MAX false cm in
  (* Loop through each client and update the minimum property values *)
  let (hr, cm) := client_loop (m_pClientList cm) cm in
  if SUCCEEDED hr then
    (* If the property values were not set by clients, set them to their defaults *)
    let (hr, mins) :=
      default_loop sensitivityCount 0 (m_spDefaultSensitivityValues cm)
                   (m_spMinSensitivityValues cm) in
    let cm := set_MinSensitivityValues mins cm in
    let cm :=
      if m_minReportInterval cm =? ULONG_MAX
      then set_minReportInterval (m_defaultReportInterval cm)
                                 (m_minReportIntervalExplicitlySet cm) cm
      else cm in
    (hr, cm)
  else (hr, cm).

(** *** Initialize, Connect, Disconnect, Subscribe, Unsubscribe *)

Definition Initialize (DefaultReportInterval MinReportInterval : ULONG)
    (pDefaultChangeSensitivities : IPortableDeviceValues) (cm : CClientManager)
  : HRESULT * CClientManager :=
  (* Set default change sensitivities *)
  let (hr, defaults) := CopyValues pDefaultChangeSensitivities
                                   (m_spDefaultSensitivityValues cm) in
  let (hr, mins) :=
    if SUCCEEDED hr
    then CopyValues pDefaultChangeSensitivities (m_spMinSensitivityValues cm)
    else (hr, m_spMinSensitivityValues cm) in
  (* Set default report interval *)
  if SUCCEEDED hr then
    (hr, mkCM (m_pClientList cm) (m_ClientCount cm) (m_SubscriberCount cm)
              defaults mins DefaultReportInterval MinReportInterval
              DefaultReportInterval (m_minReportIntervalExplicitlySet cm))
  else
    (hr, mkCM (m_pClientList cm) (m_ClientCount cm) (m_SubscriberCount cm)
              defaults mins (m_defaultReportInterval cm)
              (m_minSupportedReportInterval cm) (m_minReportInterval cm)
              (m_minReportIntervalExplicitlySet cm)).

Definition Connect (pClientFile : IWDFFile) (cm : CClientManager)
  : HRESULT * CClientManager :=
  if pClientFile =? nullptr then (E_INVALIDARG, cm)
  else
    (* Create a new PortableDeviceValues to store the property VALUES *)
    let spValues : IPortableDeviceValues := [] in
    (* Sanity check the client count *)
    if negb (ClientMap.size (m_pClientList cm) =? m_ClientCount cm)
    then (HRESULT_FROM_WIN32 ERROR_INVALID_STATE, cm)
    else
      match ClientMap.find pClientFile (m_pClientList cm) with
      | Some _ =>
          (* The client already exists *)
          (HRESULT_FROM_WIN32 ERROR_FILE_EXISTS, cm)
      | None =>
          let entry := mkEntry false spValues CURRENT_REPORT_INTERVAL_NOT_SET in
          let cm := set_ClientList (ClientMap.assign pClientFile entry (m_pClientList cm)) cm in
          (* Increment client count *)
          let cm := set_ClientCount (ulong (m_ClientCount cm + 1)) cm in
          (* Recalculate new minimum properties *)
          RecalculateProperties cm
      end.

Definition Disconnect (pClientFile : IWDFFile) (cm : CClientManager)
  : HRESULT * CClientManager :=
  if pClientFile =? nullptr then (E_INVALIDARG, cm)
  else
    (* Sanity check the client count *)
    if m_ClientCount cm =? 0 then (HRESULT_FROM_WIN32 ERROR_INVALID_STATE, cm)
    else if negb (ClientMap.size (m_pClientList cm) =? m_ClientCount cm)
    then (HRESULT_FROM_WIN32 ERROR_INVALID_STATE, cm)
    else
      (* Ensure the client is in the client list *)
      match ClientMap.find pClientFile (m_pClientList cm) with
      | None =>
          (* The client isn't connected *)
          (HRESULT_FROM_WIN32 ERROR_FILE_NOT_FOUND, cm)
      | Some entry =>
          let cm := set_ClientList (ClientMap.erase pClientFile (m_pClientList cm)) cm in
          let cm :=
            if fSubscribed entry
            then (* Unexpected state, but maintain correct subscriber count *)
                 set_SubscriberCount (ulong (m_SubscriberCount cm - 1)) cm
            else cm in
          (* Decrement client count *)
          let cm := set_ClientCount (ulong (m_ClientCount cm - 1)) cm in
          (* Recalculate new minimum properties *)
          RecalculateProperties cm
      end.

Definition Subscribe (pClientFile : IWDFFile) (cm : CClientManager)
  : HRESULT * CClientManager :=
  if pClientFile =? nullptr then (E_INVALIDARG, cm)
  else
    match ClientMap.find pClientFile (m_pClientList cm) with
    | None => (HRESULT_FROM_WIN32 ERROR_FILE_NOT_FOUND, cm)
    | Some entry =>
        if fSubscribed entry then (HRESULT_FROM_WIN32 ERROR_INVALID_STATE, cm)
        else
          (* Mark the client as subscribed *)
          let entry := mkEntry true (pDesiredSensitivityValues entry)
                               (desiredReportInterval entry) in
          let cm := set_ClientList (ClientMap.assign pClientFile entry (m_pClientList cm)) cm in
          (* Increment subscriber count *)
          let cm := set_SubscriberCount (ulong (m_SubscriberCount cm + 1)) cm in
          RecalculateProperties cm
    end.

Definition Unsubscribe (pClientFile : IWDFFile) (cm : CClientManager)
  : HRESULT * CClientManager :=
  if pClientFile =? nullptr then (E_INVALIDARG, cm)
  else
    match ClientMap.find pClientFile (m_pClientList cm) with
    | None => (HRESULT_FROM_WIN32 ERROR_FILE_NOT_FOUND, cm)
    | Some entry =>
        if negb (fSubscribed entry) then (HRESULT_FROM_WIN32 ERROR_INVALID_STATE, cm)
        else
          (* Mark the client as unsubscribed *)
          let entry := mkEntry false (pDesiredSensitivityValues entry)
                               (desiredReportInterval entry) in
          let cm := set_ClientList (ClientMap.assign pClientFile entry (m_pClientList cm)) cm in
          (* Decrement subscriber count *)
          let cm := set_SubscriberCount (ulong (m_SubscriberCount cm - 1)) cm in
          RecalculateProperties cm
    end.

Definition GetClientCount (cm : CClientManager) : ULONG := m_ClientCount cm.

Definition GetSubscriberCount (cm : CClientManager) : ULONG := m_SubscriberCount cm.

Definition GetDataUpdateMode (cm : CClientManager) : DATA_UPDATE_MODE :=
  if m_ClientCount cm =? 0 then DataUpdateModeOff
  else if (0 <? m_SubscriberCount cm) || Bool.eqb (m_minReportIntervalExplicitlySet cm) true
       then DataUpdateModeEventing
       else DataUpdateModePolling.

(** *** Desired settable properties *)

(** The test of one desired change-sensitivity value against the type the
    minimum collection holds for its key; [hrTemp] of the source. *)
Definition validate_sensitivity (mins : IPortableDeviceValues) (key : PROPERTYKEY)
    (var : PROPVARIANT) : HRESULT :=
  match PDV.GetValue key mins with
  | None => HRESULT_FROM_WIN32 ERROR_NOT_FOUND
  | Some varTemp =>
      if (negb (vt var =? vt varTemp) && negb (vt var =? vt VT_NULL))
         || match var with VT_R4 f => PrimFloat.ltb f 0%float | _ => false end
         || match var with VT_R8 d => PrimFloat.ltb d 0%float | _ => false end
      then E_INVALIDARG
      else S_OK
  end.

(** [m_pClientList[pClientFile].pDesiredSensitivityValues->SetValue(key, &var)]. *)
Definition set_desired_sensitivity (pClientFile : IWDFFile) (key : PROPERTYKEY)
    (var : PROPVARIANT) (m : CLIENT_MAP) : CLIENT_MAP :=
  let entry :=
    match ClientMap.find pClientFile m with
    | Some e => e
    | None => mkEntry false [] 0
    end in
  ClientMap.assign pClientFile
    (mkEntry (fSubscribed entry)
             (PDV.SetValue key var (pDesiredSensitivityValues entry))
             (desiredReportInterval entry)) m.

(** The loop over the desired values: the client list, the result collection
    and [fError] after the items of [vals]. *)
Fixpoint sensitivity_items (pClientFile : IWDFFile) (mins vals : IPortableDeviceValues)
    (clients : CLIENT_MAP) (results : IPortableDeviceValues) (fError : bool)
  : CLIENT_MAP * IPortableDeviceValues * bool :=
  match vals with
  | [] => (clients, results, fError)
  | (key, var) :: r =>
      let hrTemp := validate_sensitivity mins key var in
      if SUCCEEDED hrTemp then
        sensitivity_items pClientFile mins r
          (set_desired_sensitivity pClientFile key var clients)
          (PDV.SetValue key var results) fError
      else
        sensitivity_items pClientFile mins r clients
          (PDV.SetErrorValue key hrTemp results) true
  end.

(** The third component is [*ppResults]; [None] when it was never created. *)
Definition SetDesiredChangeSensitivity (pClientFile : IWDFFile)
    (pValues : IPortableDeviceValues) (cm : CClientManager)
  : HRESULT * CClientManager * option IPortableDeviceValues :=
  if pClientFile =? nullptr then (E_INVALIDARG, cm, None)
  else
    match ClientMap.find pClientFile (m_pClientList cm) with
    | None => (HRESULT_FROM_WIN32 ERROR_FILE_NOT_FOUND, cm, None)
    | Some _ =>
        let '(clients, results, fError) :=
          sensitivity_items pClientFile (m_spMinSensitivityValues cm) pValues
                            (m_pClientList cm) [] false in
        let cm := set_ClientList clients cm in
        (* Recalculate new minimum properties *)
        let (hr, cm) := RecalculateProperties cm in
        let hr := if SUCCEEDED hr && fError then S_FALSE else hr in
        (hr, cm, Some results)
    end.

Definition SetDesiredReportInterval (pClientFile : IWDFFile) (reportInterval : ULONG)
    (cm : CClientManager) : HRESULT * CClientManager :=
  if pClientFile =? nullptr then (E_INVALIDARG, cm)
  else
    (* Validate the report interval value, 0 means use default *)
    if negb (reportInterval =? 0) && (reportInterval <? m_minSupportedReportInterval cm)
    then (E_INVALIDARG, cm)
    else
      match ClientMap.find pClientFile (m_pClientList cm) with
      | None => (HRESULT_FROM_WIN32 ERROR_FILE_NOT_FOUND, cm)
      | Some entry =>
          let entry := mkEntry (fSubscribed entry) (pDesiredSensitivityValues entry)
                               reportInterval in
          let cm := set_ClientList (ClientMap.assign pClientFile entry (m_pClientList cm)) cm in
          RecalculateProperties cm
      end.


Definition GetArbitratedProperty (key : PROPERTYKEY) (cm : CClientManager)
  : HRESULT * PROPVARIANT :=
  if IsEqualPropertyKey key SENSOR_PROPERTY_CHANGE_SENSITIVITY then
    let (hr, copy) := CopyValues (m_spMinSensitivityValues cm) [] in
    (hr, VT_UNKNOWN copy)
  else if IsEqualPropertyKey key SENSOR_PROPERTY_CURRENT_REPORT_INTERVAL then
    (S_OK, VT_UI4 (m_minReportInterval cm))
  else (HRESULT_FROM_WIN32 ERROR_NOT_FOUND, VT_EMPTY).

(** ** The report manager *)

Module ReportManager.

(** Modelled from the spec: [ReportManager.cpp] is not among the sources (only
    [ReportManager.h] is).  The state and the operations follow section 4.3 of the
    specification: [last_report_time], [report_interval], [active] and the
    pending-data flag; [start] and [stop] are idempotent, [set_report_interval]
    replaces the interval, [notify_new_data] marks data as pending, and a wake of
    the waiter loop at time [now] emits a report when the loop is active, at
    least [report_interval] has elapsed since the previous report and data is
    pending (clearing the flag and recording [now]). *)
Record CReportManager : Type := mkRM {
  m_LastReportTickCount : Z;
  m_ReportInterval : ULONG;
  m_fDataEventingThreadActive : bool;
  m_fPendingData : bool
}.

Definition Initialize (initialReportInterval : ULONG) : CReportManager :=
  mkRM 0 initialReportInterval false false.

Definition start (initial_interval : ULONG) (rm : CReportManager) : CReportManager :=
  if m_fDataEventingThreadActive rm then rm
  else mkRM (m_LastReportTickCount rm) initial_interval true (m_fPendingData rm).

Definition stop (rm : CReportManager) : CReportManager :=
  mkRM (m_LastReportTickCount rm) (m_ReportInterval rm) false (m_fPendingData rm).

Definition SetReportInterval (reportInterval : ULONG) (rm : CReportManager)
  : CReportManager :=
  mkRM (m_LastReportTickCount rm) reportInterval
       (m_fDataEventingThreadActive rm) (m_fPendingData rm).

Definition NewDataAvailable (rm : CReportManager) : CReportManager :=
  mkRM (m_LastReportTickCount rm) (m_ReportInterval rm)
       (m_fDataEventingThreadActive rm) true.

(** Modelled from the spec: the loop body of [_DataEventingThreadProc], which
    is not among the sources.  One wake of the waiter loop at tick [now]: the
    new state and whether a report was emitted. *)
Definition wake (now : Z) (rm : CReportManager) : CReportManager * bool :=
  if m_fDataEventingThreadActive rm
     && (m_ReportInterval rm <=? now - m_LastReportTickCount rm)
     && m_fPendingData rm
  then (mkRM now (m_ReportInterval rm) true false, true)
  else (rm, false).

(** What can happen to the throttle, in the order it happens. *)
Inductive event : Type :=
| EvStart (initial_interval : ULONG)
| EvStop
| EvSetReportInterval (v : ULONG)
| EvNewData
| EvWake (now : Z).

(** A report: the tick it was emitted at and the interval in effect then. *)
Record report : Type := mkReport { report_time : Z; report_interval_then : ULONG }.

Definition step (e : event) (rm : CReportManager) : CReportManager * list report :=
  match e with
  | EvStart v => (start v rm, [])
  | EvStop => (stop rm, [])
  | EvSetReportInterval v => (SetReportInterval v rm, [])
  | EvNewData => (NewDataAvailable rm, [])
  | EvWake now =>
      let (rm', emitted) := wake now rm in
      (rm', if emitted then [mkReport now (m_ReportInterval rm)] else [])
  end.

Fixpoint run (evs : list event) (rm : CReportManager) : CReportManager * list report :=
  match evs with
  | [] => (rm, [])
  | e :: r =>
      let (rm1, out1) := step e rm in
      let (rm2, out2) := run r rm1 in
      (rm2, out1 ++ out2)
  end.

Definition is_start (e : event) : bool :=
  match e with EvStart _ => true | _ => false end.

(** Consecutive reports of a list are at least the later one's interval apart. *)
Fixpoint spaced (prev : option Z) (l : list report) : Prop :=
  match l with
  | [] => True
  | r :: rest =>
      match prev with
      | Some t => report_interval_then r <= report_time r - t
      | None => True
      end /\ spaced (Some (report_time r)) rest
  end.

End ReportManager.

(** ** The device: SensorDevice.cpp and AccelerometerDevice.cpp *)

(** Constants and inline helpers declared in headers that are not among the
    sources ([Adxl345.h], [Internal.h]); taken as a parameter of the device. *)
Record DeviceHeaders : Type := mkHeaders {
  ADXL345_THRESH_ACT : BYTE;
  ADXL345_BW_RATE : BYTE;
  ADXL345_POWER_CTL : BYTE;
  ADXL345_INT_ENABLE : BYTE;
  ADXL345_INT_SOURCE : BYTE;
  ADXL345_DATA_X0 : BYTE;
  ADXL345_POWER_CTL_STANDBY : BYTE;
  ADXL345_POWER_CTL_MEASURE : BYTE;
  ADXL345_INT_ACTIVITY : BYTE;
  ADXL345_DATA_REPORT_SIZE_BYTES : Z;
  ACCELEROMETER_MIN_ACCELERATION_G : float;
  ACCELEROMETER_MAX_ACCELERATION_G : float;
  ACCELEROMETER_CHANGE_SENSITIVITY_RESOLUTION : float;
  (* _GetDataRateFromReportInterval(interval).RateCode *)
  GetDataRateFromReportInterval_RateCode : ULONG -> BYTE;
  SENSOR_PROPERTY_TEST_REGISTER : PROPERTYKEY;
  SENSOR_PROPERTY_TEST_DATA_SIZE : PROPERTYKEY;
  SENSOR_PROPERTY_TEST_DATA : PROPERTYKEY
}.

(** The SPB bus behind [CSpbRequest]: what the driver asked for, and what the
    controller answers to the requests still to come. *)
Inductive SpbOp : Type :=
| SpbWrite (reg : BYTE) (data : list BYTE)
| SpbRead (reg : BYTE) (len : Z).

Record SpbReply : Type := mkReply { reply_hr : HRESULT; reply_data : list BYTE }.

Record CAccelerometerDevice : Type := mkDev {
  (* CSensorDevice *)
  m_spSensorPropertyValues : IPortableDeviceValues;
  m_spSensorDataFieldValues : IPortableDeviceValues;
  m_pClientManager : CClientManager;
  m_pReportManager : ReportManager.CReportManager;
  m_fStateChanged : bool;
  m_fSensorInitialized : bool;
  m_DataUpdateMode : DATA_UPDATE_MODE;
  (* CAccelerometerDevice *)
  m_pDataBuffer : list BYTE;
  m_fInitialized : bool;
  m_InterruptsEnabled : BYTE;
  m_TestRegister : ULONG;
  m_TestDataSize : ULONG;
  (* environment: the bus and the system clock *)
  spb_script : list SpbReply;
  spb_log : list SpbOp;
  system_time : Z
}.

Definition set_PropertyValues (v : IPortableDeviceValues) (d : CAccelerometerDevice) :=
  mkDev v (m_spSensorDataFieldValues d) (m_pClientManager d) (m_pReportManager d)
        (m_fStateChanged d) (m_fSensorInitialized d) (m_DataUpdateMode d)
        (m_pDataBuffer d) (m_fInitialized d) (m_InterruptsEnabled d)
        (m_TestRegister d) (m_TestDataSize d) (spb_script d) (spb_log d) (system_time d).

Definition set_DataFieldValues (v : IPortableDeviceValues) (d : CAccelerometerDevice) :=
  mkDev (m_spSensorPropertyValues d) v (m_pClientManager d) (m_pReportManager d)
        (m_fStateChanged d) (m_fSensorInitialized d) (m_DataUpdateMode d)
        (m_pDataBuffer d) (m_fInitialized d) (m_InterruptsEnabled d)
        (m_TestRegister d) (m_TestDataSize d) (spb_script d) (spb_log d) (system_time d).


Definition set_ReportManager (v : ReportManager.CReportManager) (d : CAccelerometerDevice) :=
  mkDev (m_spSensorPropertyValues d) (m_spSensorDataFieldValues d) (m_pClientManager d) v
        (m_fStateChanged d) (m_fSensorInitialized d) (m_DataUpdateMode d)
        (m_pDataBuffer d) (m_fInitialized d) (m_InterruptsEnabled d)
        (m_TestRegister d) (m_TestDataSize d) (spb_script d) (spb_log d) (system_time d).

Definition set_fStateChanged (v : bool) (d : CAccelerometerDevice) :=
  mkDev (m_spSensorPropertyValues d) (m_spSensorDataFieldValues d) (m_pClientManager d)
        (m_pReportManager d) v (m_fSensorInitialized d) (m_DataUpdateMode d)
        (m_pDataBuffer d) (m_fInitialized d) (m_InterruptsEnabled d)
        (m_TestRegister d) (m_TestDataSize d) (spb_script d) (spb_log d) (system_time d).

Definition set_DataUpdateMode (v : DATA_UPDATE_MODE) (d : CAccelerometerDevice) :=
  mkDev (m_spSensorPropertyValues d) (m_spSensorDataFieldValues d) (m_pClientManager d)
        (m_pReportManager d) (m_fStateChanged d) (m_fSensorInitialized d) v
        (m_pDataBuffer d) (m_fInitialized d) (m_InterruptsEnabled d)
        (m_TestRegister d) (m_TestDataSize d) (spb_script d) (spb_log d) (system_time d).

Definition set_DataBuffer (v : list BYTE) (d : CAccelerometerDevice) :=
  mkDev (m_spSensorPropertyValues d) (m_spSensorDataFieldValues d) (m_pClientManager d)
        (m_pReportManager d) (m_fStateChanged d) (m_fSensorInitialized d) (m_DataUpdateMode d)
        v (m_fInitialized d) (m_InterruptsEnabled d)
        (m_TestRegister d) (m_TestDataSize d) (spb_script d) (spb_log d) (system_time d).

Definition set_InterruptsEnabled (v : BYTE) (d : CAccelerometerDevice) :=
  mkDev (m_spSensorPropertyValues d) (m_spSensorDataFieldValues d) (m_pClientManager d)
        (m_pReportManager d) (m_fStateChanged d) (m_fSensorInitialized d) (m_DataUpdateMode d)
        (m_pDataBuffer d) (m_fInitialized d) v
        (m_TestRegister d) (m_TestDataSize d) (spb_script d) (spb_log d) (system_time d).



Definition set_spb (script : list SpbReply) (log : list SpbOp) (d : CAccelerometerDevice) :=
  mkDev (m_spSensorPropertyValues d) (m_spSensorDataFieldValues d) (m_pClientManager d)
        (m_pReportManager d) (m_fStateChanged d) (m_fSensorInitialized d) (m_DataUpdateMode d)
        (m_pDataBuffer d) (m_fInitialized d) (m_InterruptsEnabled d)
        (m_TestRegister d) (m_TestDataSize d) script log (system_time d).

(** One request on the bus: it is logged, and the next scripted reply is its
    answer (success with zero bytes once the script is used up). *)
Definition spb_request (op : SpbOp) (d : CAccelerometerDevice)
  : SpbReply * CAccelerometerDevice :=
  let len := match op with SpbWrite _ _ => 0 | SpbRead _ n => n end in
  match spb_script d with
  | [] => (mkReply S_OK (repeat 0 (Z.to_nat len)), set_spb [] (spb_log d ++ [op]) d)
  | r :: rest => (r, set_spb rest (spb_log d ++ [op]) d)
  end.

(** *** Floating-point conversions of C *)

Definition to_signed16 (x : Z) : Z :=
  let y := x mod 65536 in
  if y <? 32768 then y else y - 65536.

(** [(DOUBLE)x] for a [SHORT] [x]: exact. *)
Definition double_of_SHORT (x : Z) : float :=
  if x <? 0 then PrimFloat.opp (PrimFloat.of_uint63 (Uint63.of_Z (- x)))
  else PrimFloat.of_uint63 (Uint63.of_Z x).

(** [(BYTE)x] for a [DOUBLE] [x]: truncation toward zero, then the low byte. *)
Definition BYTE_of_double (x : float) : BYTE :=
  match Prim2SF x with
  | S754_finite sign m e =>
      let mag := if 0 <=? e then Z.pos m * 2 ^ e else Z.pos m / 2 ^ (- e) in
      (if sign then - mag else mag) mod 256
  | _ => 0
  end.

Definition DBL_MAX : float := 0x1.fffffffffffffp+1023%float.

Section Device.

Variable hdr : DeviceHeaders.

(** *** Register access *)

Definition WriteRegister (reg : BYTE) (data : list BYTE) (d : CAccelerometerDevice)
  : HRESULT * CAccelerometerDevice :=
  if m_fInitialized d then
    (* Execute the write *)
    let (r, d) := spb_request (SpbWrite reg data) d in
    (reply_hr r, d)
  else (E_UNEXPECTED, d).

(** The second component is the content of [pDataBuffer] after the call (the
    bytes read, when the transfer succeeded). *)
Definition ReadRegister (reg : BYTE) (len : Z) (d : CAccelerometerDevice)
  : HRESULT * list BYTE * CAccelerometerDevice :=
  if m_fInitialized d then
    (* Execute the write-read sequence *)
    let (r, d) := spb_request (SpbRead reg len) d in
    (reply_hr r, reply_data r, d)
  else (E_UNEXPECTED, [], d).

(** *** Device states *)

Definition SetDeviceStateStandby (d : CAccelerometerDevice)
  : HRESULT * CAccelerometerDevice :=
  (* Disable interrupts *)
  let (hr, d) := WriteRegister (ADXL345_INT_ENABLE hdr) [0] d in
  let d := if FAILED hr then d else set_InterruptsEnabled 0 d in
  (* Clear any stale interrupts *)
  let (hr, d) :=
    if SUCCEEDED hr
    then let '(hr, _, d) := ReadRegister (ADXL345_INT_SOURCE hdr) 1 d in (hr, d)
    else (hr, d) in
  (* Place device in standy mode *)
  let (hr, d) := WriteRegister (ADXL345_POWER_CTL hdr) [ADXL345_POWER_CTL_STANDBY hdr] d in
  (hr, d).

Definition SetDeviceStatePolling (d : CAccelerometerDevice)
  : HRESULT * CAccelerometerDevice :=
  (* Disable interrupts *)
  let (hr, d) := WriteRegister (ADXL345_INT_ENABLE hdr) [0] d in
  let d := if FAILED hr then d else set_InterruptsEnabled 0 d in
  (* Place device in measurement mode *)
  if SUCCEEDED hr
  then WriteRegister (ADXL345_POWER_CTL hdr) [ADXL345_POWER_CTL_MEASURE hdr] d
  else (hr, d).

Definition SetDeviceStateEventing (d : CAccelerometerDevice)
  : HRESULT * CAccelerometerDevice :=
  let (hr, d) := WriteRegister (ADXL345_POWER_CTL hdr) [ADXL345_POWER_CTL_MEASURE hdr] d in
  (* Enable activity detection interrupt *)
  if SUCCEEDED hr then
    let (hr, d) := WriteRegister (ADXL345_INT_ENABLE hdr) [ADXL345_INT_ACTIVITY hdr] d in
    let d := if FAILED hr then d else set_InterruptsEnabled (ADXL345_INT_ACTIVITY hdr) d in
    (hr, d)
  else (hr, d).

Definition SetReportInterval (ReportInterval : ULONG) (d : CAccelerometerDevice)
  : HRESULT * CAccelerometerDevice :=
  if m_fInitialized d then
    let newRateCode := GetDataRateFromReportInterval_RateCode hdr ReportInterval in
    (* Disable interrupts while data rate is modified *)
    let (hr, d) := WriteRegister (ADXL345_INT_ENABLE hdr) [0] d in
    (* Update the data rate. *)
    let (hr, d) :=
      if SUCCEEDED hr then WriteRegister (ADXL345_BW_RATE hdr) [newRateCode] d
      else (hr, d) in
    (* Reenable interrupts *)
    if SUCCEEDED hr
    then WriteRegister (ADXL345_INT_ENABLE hdr) [ADXL345_INT_ACTIVITY hdr] d
    else (hr, d)
  else (E_UNEXPECTED, d).

(** [for (i = 0; i < count; i++)]: the smallest [VT_R8] value of the collection. *)
Fixpoint min_change_sensitivity (vals : IPortableDeviceValues) (acc : float) : float :=
  match vals with
  | [] => acc
  | (_, VT_R8 dbl) :: r =>
      min_change_sensitivity r (if PrimFloat.ltb dbl acc then dbl else acc)
  | _ :: r => min_change_sensitivity r acc
  end.

Definition SetChangeSensitivity (pVar : PROPVARIANT) (d : CAccelerometerDevice)
  : HRESULT * CAccelerometerDevice :=
  if m_fInitialized d then
    match pVar with
    | VT_UNKNOWN spPerDataFieldValues =>
        (* The accelerometer only supports a single value, so pick the
           smallest, i.e. most sensitive. *)
        let minChangeSensitivity := min_change_sensitivity spPerDataFieldValues DBL_MAX in
        (* round down to a more sensitive setting *)
        let newThreshold :=
          BYTE_of_double
            (PrimFloat.div minChangeSensitivity
                           (ACCELEROMETER_CHANGE_SENSITIVITY_RESOLUTION hdr)) in
        (* Disable interrupts while activity threshold is modified *)
        let (hr, d) := WriteRegister (ADXL345_INT_ENABLE hdr) [0] d in
        (* Update the activity detection threshold. *)
        let (hr, d) :=
          if SUCCEEDED hr then WriteRegister (ADXL345_THRESH_ACT hdr) [newThreshold] d
          else (hr, d) in
        (* Reenable interrupts *)
        if SUCCEEDED hr
        then WriteRegister (ADXL345_INT_ENABLE hdr) [ADXL345_INT_ACTIVITY hdr] d
        else (hr, d)
    | _ => (E_INVALIDARG, d)
    end
  else (E_UNEXPECTED, d).

(** *** Test properties *)

Definition IsTestProperty (key : PROPERTYKEY) : bool :=
  IsEqualPropertyKey key (SENSOR_PROPERTY_TEST_REGISTER hdr)
  || IsEqualPropertyKey key (SENSOR_PROPERTY_TEST_DATA_SIZE hdr)
  || IsEqualPropertyKey key (SENSOR_PROPERTY_TEST_DATA hdr).

Definition GetTestProperty (key : PROPERTYKEY) (d : CAccelerometerDevice)
  : HRESULT * PROPVARIANT * CAccelerometerDevice :=
  if m_fInitialized d then
    if IsEqualPropertyKey key (SENSOR_PROPERTY_TEST_REGISTER hdr)
    then (S_OK, VT_UI4 (m_TestRegister d), d)
    else if IsEqualPropertyKey key (SENSOR_PROPERTY_TEST_DATA_SIZE hdr)
    then (S_OK, VT_UI4 (m_TestDataSize d), d)
    else if IsEqualPropertyKey key (SENSOR_PROPERTY_TEST_DATA hdr)
    then
      let '(hr, data, d) := ReadRegister (m_TestRegister d mod 256) (m_TestDataSize d) d in
      if SUCCEEDED hr then (hr, VT_VECTOR_UI1 data, d) else (hr, VT_EMPTY, d)
    else (HRESULT_FROM_WIN32 ERROR_NOT_FOUND, VT_EMPTY, d)
  else (E_UNEXPECTED, VT_EMPTY, d).


(** *** Reading a sample *)

(** The second component is [pValues] after the call. *)
Definition AddDataFieldValue (key : PROPERTYKEY) (pVar : PROPVARIANT)
    (pValues : IPortableDeviceValues) : HRESULT * IPortableDeviceValues :=
  let hr :=
    if IsEqualPropertyKey key SENSOR_DATA_TYPE_ACCELERATION_X_G
       || IsEqualPropertyKey key SENSOR_DATA_TYPE_ACCELERATION_Y_G
       || IsEqualPropertyKey key SENSOR_DATA_TYPE_ACCELERATION_Z_G
    then
      match pVar with
      | VT_R8 dblVal =>
          if PrimFloat.ltb dblVal (ACCELEROMETER_MIN_ACCELERATION_G hdr)
             || PrimFloat.ltb (ACCELEROMETER_MAX_ACCELERATION_G hdr) dblVal
          then E_INVALIDARG
          else S_OK
      | _ => E_INVALIDARG
      end
    else S_OK in
  if SUCCEEDED hr then (S_OK, PDV.SetValue key pVar pValues) else (hr, pValues).

Definition scaleFactor : float := PrimFloat.div 1 256.

Definition RequestData (pValues : IPortableDeviceValues) (d : CAccelerometerDevice)
  : HRESULT * IPortableDeviceValues * CAccelerometerDevice :=
  if m_fInitialized d then
    (* Read the data registers *)
    let '(hr, data, d) :=
      ReadRegister (ADXL345_DATA_X0 hdr) (ADXL345_DATA_REPORT_SIZE_BYTES hdr) d in
    if SUCCEEDED hr then
      let d := set_DataBuffer data d in
      let byte i := nth i (m_pDataBuffer d) 0 in
      (* Get the data values as doubles *)
      let xRaw := to_signed16 (Z.lor (Z.shiftl (byte 1%nat) 8) (byte 0%nat)) in
      let yRaw := to_signed16 (Z.lor (Z.shiftl (byte 3%nat) 8) (byte 2%nat)) in
      let zRaw := to_signed16 (Z.lor (Z.shiftl (byte 5%nat) 8) (byte 4%nat)) in
      let xAccel := PrimFloat.mul (double_of_SHORT xRaw) scaleFactor in
      let yAccel := PrimFloat.mul (double_of_SHORT yRaw) scaleFactor in
      let zAccel := PrimFloat.mul (double_of_SHORT zRaw) scaleFactor in
      (* Verify each accelerometer data value and add it to the list *)
      let (hr, pValues) :=
        AddDataFieldValue SENSOR_DATA_TYPE_ACCELERATION_X_G (VT_R8 xAccel) pValues in
      let (hr, pValues) :=
        if SUCCEEDED hr
        then AddDataFieldValue SENSOR_DATA_TYPE_ACCELERATION_Y_G (VT_R8 yAccel) pValues
        else (hr, pValues) in
      let (hr, pValues) :=
        if SUCCEEDED hr
        then AddDataFieldValue SENSOR_DATA_TYPE_ACCELERATION_Z_G (VT_R8 zAccel) pValues
        else (hr, pValues) in
      (hr, pValues, d)
    else (hr, pValues, d)
  else (E_UNEXPECTED, pValues, d).

Definition RequestNewData (pValues : IPortableDeviceValues) (d : CAccelerometerDevice)
  : HRESULT * IPortableDeviceValues * CAccelerometerDevice :=
  if m_fInitialized d then RequestData pValues d else (E_UNEXPECTED, pValues, d).

(** *** CSensorDevice: property cache and sensor state *)

Definition GetProperty (key : PROPERTYKEY) (d : CAccelerometerDevice)
  : HRESULT * PROPVARIANT * CAccelerometerDevice :=
  (* Check if this is a test property *)
  if IsTestProperty key then GetTestProperty key d
  (* Settable properties are managed by the client manager *)
  else if IsEqualPropertyKey key SENSOR_PROPERTY_CHANGE_SENSITIVITY
          || IsEqualPropertyKey key SENSOR_PROPERTY_CURRENT_REPORT_INTERVAL
  then let (hr, var) := GetArbitratedProperty key (m_pClientManager d) in (hr, var, d)
  else
    (* Retrieve property value from cache *)
    match PDV.GetValue key (m_spSensorPropertyValues d) with
    | Some var => (S_OK, var, d)
    | None => (HRESULT_FROM_WIN32 ERROR_NOT_FOUND, VT_EMPTY, d)
    end.

Definition SetState (newState : Z) (d : CAccelerometerDevice)
  : HRESULT * CAccelerometerDevice :=
  (* Get current state *)
  let '(hr, var, d) := GetProperty SENSOR_PROPERTY_STATE d in
  if SUCCEEDED hr then
    let currentState := get_ulVal var in
    if negb (currentState =? newState) then
      (* State has changed, update property value in the cache *)
      let d := set_PropertyValues
                 (PDV.SetValue SENSOR_PROPERTY_STATE (VT_UI4 newState)
                               (m_spSensorPropertyValues d)) d in
      (S_OK, set_fStateChanged true d)
    else (hr, d)
  else (hr, d).

Definition HasStateChanged (d : CAccelerometerDevice) : bool * CAccelerometerDevice :=
  if Bool.eqb true (m_fStateChanged d)
  then (m_fStateChanged d, set_fStateChanged false d)
  else (false, d).

Definition SetTimeStamp (d : CAccelerometerDevice) : HRESULT * CAccelerometerDevice :=
  (* Get the current time as FILETIME format *)
  let var := VT_FILETIME (system_time d) in
  (S_OK, set_DataFieldValues
           (PDV.SetValue SENSOR_DATA_TYPE_TIMESTAMP var (m_spSensorDataFieldValues d)) d).

(** [for (i = 0; i < valueCount; i++)]: every value of [pValues] is set in the
    data field cache. *)
Fixpoint update_cache (pValues : IPortableDeviceValues) (cache : IPortableDeviceValues)
  : IPortableDeviceValues :=
  match pValues with
  | [] => cache
  | (key, var) :: r => update_cache r (PDV.SetValue key var cache)
  end.

Definition RaiseDataEvent (d : CAccelerometerDevice) : CAccelerometerDevice :=
  (* Check if there are any subscribers *)
  if 0 <? GetSubscriberCount (m_pClientManager d)
  then (* Inform the report manager when new data is available. *)
       set_ReportManager (ReportManager.NewDataAvailable (m_pReportManager d)) d
  else d.

Definition DataAvailable (pValues : IPortableDeviceValues) (d : CAccelerometerDevice)
  : HRESULT * CAccelerometerDevice :=
  (* Update the timestamp *)
  let (hr, d) := SetTimeStamp d in
  if SUCCEEDED hr then
    (* Update cache with the new data *)
    let d := set_DataFieldValues (update_cache pValues (m_spSensorDataFieldValues d)) d in
    (* Mark sensor state as ready. *)
    let (hr, d) := SetState SENSOR_STATE_READY d in
    if SUCCEEDED hr
    then (* Raise an event to signal new data *) (hr, RaiseDataEvent d)
    else (hr, d)
  else (hr, d).

Definition PollForData (d : CAccelerometerDevice) : HRESULT * CAccelerometerDevice :=
  (* Create an IPortableDeviceValues to hold the data *)
  let spValues : IPortableDeviceValues := [] in
  let '(hr, spValues, d) := RequestNewData spValues d in
  if SUCCEEDED hr then
    (* Update cache with the new data *)
    let d := set_DataFieldValues (update_cache spValues (m_spSensorDataFieldValues d)) d in
    (* Update the timestamp *)
    let (hr, d) := SetTimeStamp d in
    (* Mark sensor state as ready. *)
    if SUCCEEDED hr then SetState SENSOR_STATE_READY d else (hr, d)
  else (hr, d).

(** [OnInterruptWorkItem], once the device context was retrieved. *)
Definition OnInterruptWorkItem (d : CAccelerometerDevice) : HRESULT * CAccelerometerDevice :=
  let spValues : IPortableDeviceValues := [] in
  let '(hr, spValues, d) := RequestData spValues d in
  if SUCCEEDED hr then DataAvailable spValues d else (hr, d).

(** *** CSensorDevice: data update mode *)

Definition SetDataUpdateMode (Mode : DATA_UPDATE_MODE) (d : CAccelerometerDevice)
  : HRESULT * CAccelerometerDevice :=
  let (hr, d) :=
    match Mode with
    | DataUpdateModeOff => SetDeviceStateStandby d
    | DataUpdateModePolling => SetDeviceStatePolling d
    | DataUpdateModeEventing => SetDeviceStateEventing d
    end in
  if SUCCEEDED hr then (hr, set_DataUpdateMode Mode d) else (hr, d).

Definition DATA_UPDATE_MODE_eqb (a b : DATA_UPDATE_MODE) : bool :=
  match a, b with
  | DataUpdateModeOff, DataUpdateModeOff => true
  | DataUpdateModePolling, DataUpdateModePolling => true
  | DataUpdateModeEventing, DataUpdateModeEventing => true
  | _, _ => false
  end.

Definition ApplyUpdatedProperties (d : CAccelerometerDevice)
  : HRESULT * CAccelerometerDevice :=
  let (hr, d) :=
    if m_fSensorInitialized d then
      (* Update the report interval *)
      let (hr, var) :=
        GetArbitratedProperty SENSOR_PROPERTY_CURRENT_REPORT_INTERVAL (m_pClientManager d) in
      let (hr, d) :=
        if SUCCEEDED hr then
          (* Update device with report interval *)
          let (hr, d) := SetReportInterval (get_ulVal var) d in
          if SUCCEEDED hr
          then (hr, set_ReportManager
                      (ReportManager.SetReportInterval (get_ulVal var) (m_pReportManager d)) d)
          else (hr, d)
        else (hr, d) in
      if SUCCEEDED hr then
        (* Update the change sensitivity *)
        let (hr, var) :=
          GetArbitratedProperty SENSOR_PROPERTY_CHANGE_SENSITIVITY (m_pClientManager d) in
        if SUCCEEDED hr
        then (* Update device with change sensitivity *) SetChangeSensitivity var d
        else (hr, d)
      else (hr, d)
    else (E_UNEXPECTED, d) in
  if SUCCEEDED hr then
    let newMode := GetDataUpdateMode (m_pClientManager d) in
    if negb (DATA_UPDATE_MODE_eqb newMode (m_DataUpdateMode d))
    then SetDataUpdateMode newMode d
    else (hr, d)
  else (hr, d).

(** *** CSensorDevice::SetProperties *)




End Device.

(** *** CSensorDevice::GetSupportedEvents *)

(** [pBuf[i] = x]; a write outside the buffer is outside the embedding and
    leaves it as it is. *)
Fixpoint write_at {A : Type} (i : nat) (x : A) (l : list A) : list A :=
  match l, i with
  | [], _ => []
  | _ :: r, O => x :: r
  | y :: r, S i' => y :: write_at i' x r
  end.

(** The number of increments left before a 32-bit [count] wraps to 0. *)
Definition remaining (count : ULONG) : Z := (4294967296 - ulong count) mod 4294967296.

#[local] Instance Zlt_from_0_wf : WellFounded (fun x y : Z => 0 <= x < y) := Z.lt_wf 0.

Lemma remaining_step (i count : Z) :
  ulong i < ulong count -> 0 <= remaining (ulong (count + 1)) < remaining count.
Proof.
  unfold remaining, ulong. intros H.
  assert (H0 : 0 <= i mod 4294967296 < 4294967296) by (apply Z.mod_pos_bound; lia).
  assert (H1 : 0 <= count mod 4294967296 < 4294967296) by (apply Z.mod_pos_bound; lia).
  rewrite Z.mod_mod by lia.
  rewrite <- Zplus_mod_idemp_l.
  remember (count mod 4294967296) as c.
  destruct (Z.eq_dec c 4294967295) as [-> | Hne].
  - change ((4294967295 + 1) mod 4294967296) with 0.
    change ((4294967296 - 0) mod 4294967296) with 0.
    rewrite Z.mod_small by lia. lia.
  - rewrite (Z.mod_small (c + 1)) by lia.
    rewrite !Z.mod_small by lia. lia.
Qed.

(** [for (DWORD i = 0; i < count; count++) { *(pBuf + i) = events[i].fmtid; }]
    from the loop test on.  [i] and [count] are read as 32-bit unsigned values
    and [count++] wraps.  The third component counts the executions of the
    body.  A buffer cell is [None] until it is written. *)
Equations? events_loop (events : list PROPERTYKEY) (i count : ULONG)
    (pBuf : list (option GUID)) (iterations : Z)
  : ULONG * list (option GUID) * Z
  by wf (remaining count) (fun x y : Z => 0 <= x < y) :=
  events_loop events i count pBuf iterations with Z_lt_dec (ulong i) (ulong count) := {
    | left _ =>
        events_loop events i (ulong (count + 1))
          (write_at (Z.to_nat (ulong i))
                    (Some (fmtid (nth (Z.to_nat (ulong i)) events (mkKey 0 0)))) pBuf)
          (iterations + 1)
    | right _ => (ulong count, pBuf, iterations)
  }.
Proof. eapply remaining_step; eassumption. Qed.

(** The result is the status, [*ppSupportedEvents] ([None] for [nullptr]),
    [*pEventCount] and the number of loop iterations.  [events] is the array the
    virtual [GetSupportedEvents(&count)] returns and [alloc_ok] tells whether
    [CoTaskMemAlloc] returned a buffer. *)
Definition GetSupportedEvents (events : list PROPERTYKEY) (alloc_ok : bool)
  : HRESULT * option (list (option GUID)) * ULONG * Z :=
  let count := Z.of_nat (length events) in
  if alloc_ok then
    let pBuf := repeat None (length events) in
    let '(count, pBuf, iterations) := events_loop events 0 count pBuf 0 in
    (S_OK, Some pBuf, count, iterations)
  else (E_OUTOFMEMORY, None, 0, 0).

(** [g_SupportedAccelerometerEvents]. *)
Definition g_SupportedAccelerometerEvents : list PROPERTYKEY :=
  [ mkKey SENSOR_EVENT_DATA_UPDATED 0; mkKey SENSOR_EVENT_STATE_CHANGED 0 ].

(** ** Reachable registry states and example configurations *)

(** A client request to the registry. *)
Inductive request : Type :=
| ReqConnect (id : IWDFFile)
| ReqDisconnect (id : IWDFFile)
| ReqSubscribe (id : IWDFFile)
| ReqUnsubscribe (id : IWDFFile)
| ReqSetDesiredReportInterval (id : IWDFFile) (reportInterval : ULONG)
| ReqSetDesiredChangeSensitivity (id : IWDFFile) (pValues : IPortableDeviceValues).

Definition serve (r : request) (cm : CClientManager) : HRESULT * CClientManager :=
  match r with
  | ReqConnect id => Connect id cm
  | ReqDisconnect id => Disconnect id cm
  | ReqSubscribe id => Subscribe id cm
  | ReqUnsubscribe id => Unsubscribe id cm
  | ReqSetDesiredReportInterval id v => SetDesiredReportInterval id v cm
  | ReqSetDesiredChangeSensitivity id vals =>
      let '(hr, cm, _) := SetDesiredChangeSensitivity id vals cm in (hr, cm)
  end.

(** The states the registry goes through: [Initialize] on a fresh manager,
    then any requests, whether they succeed or not. *)
Inductive reachable (DefaultReportInterval MinReportInterval : ULONG)
    (defaults : IPortableDeviceValues) : CClientManager -> Prop :=
| reachable_init :
    reachable DefaultReportInterval MinReportInterval defaults
      (snd (Initialize DefaultReportInterval MinReportInterval defaults CClientManager_new))
| reachable_serve r cm :
    reachable DefaultReportInterval MinReportInterval defaults cm ->
    reachable DefaultReportInterval MinReportInterval defaults (snd (serve r cm)).

(** Default change sensitivities as [GetDefaultSettableProperties] builds them:
    one [VT_R8] value for each axis. *)
Definition accelerometer_defaults (sensitivity : float) : IPortableDeviceValues :=
  PDV.SetValue SENSOR_DATA_TYPE_ACCELERATION_Z_G (VT_R8 sensitivity)
    (PDV.SetValue SENSOR_DATA_TYPE_ACCELERATION_Y_G (VT_R8 sensitivity)
       (PDV.SetValue SENSOR_DATA_TYPE_ACCELERATION_X_G (VT_R8 sensitivity) [])).

(** A registry initialised with a default interval of 1000 ms, a minimum of
    10 ms and a default sensitivity of 0.5 g. *)
Definition example_registry : CClientManager :=
  snd (Initialize 1000 10 (accelerometer_defaults 0.5) CClientManager_new).

(** Header values of the ADXL345 data sheet (register map, +-16 g range), with
    three test keys of their own. *)
Definition example_headers : DeviceHeaders :=
  mkHeaders 0x24 0x2C 0x2D 0x2E 0x30 0x32 0x00 0x08 0x10 6
            (-16)%float 16%float 0.0625%float
            (fun interval => if interval <? 10 then 0x0A else 0x09)
            (mkKey 1 2) (mkKey 1 3) (mkKey 1 4).

Definition example_properties : IPortableDeviceValues :=
  [ (SENSOR_PROPERTY_STATE, VT_UI4 SENSOR_STATE_NO_DATA);
    (SENSOR_PROPERTY_MIN_REPORT_INTERVAL, VT_UI4 10) ].

(** An initialised device around a registry, with the bus answers to come. *)
Definition example_device (cm : CClientManager) (mode : DATA_UPDATE_MODE)
    (script : list SpbReply) : CAccelerometerDevice :=
  mkDev example_properties
        [ (SENSOR_DATA_TYPE_TIMESTAMP, VT_EMPTY);
          (SENSOR_DATA_TYPE_ACCELERATION_X_G, VT_EMPTY);
          (SENSOR_DATA_TYPE_ACCELERATION_Y_G, VT_EMPTY);
          (SENSOR_DATA_TYPE_ACCELERATION_Z_G, VT_EMPTY) ]
        cm (ReportManager.Initialize 1000) false true mode
        [0; 0; 0; 0; 0; 0] true 0 0 0 script [] 0.

(** ** Notions used to state the properties *)

(** The acceleration a pair of data registers encodes: [(DOUBLE)raw * scaleFactor]. *)
Definition acceleration (lo hi : BYTE) : float :=
  PrimFloat.mul (double_of_SHORT (to_signed16 (Z.lor (Z.shiftl hi 8) lo))) scaleFactor.

(** The range test of [AddDataFieldValue], read positively. *)
Definition in_range (hdr : DeviceHeaders) (v : float) : bool :=
  negb (PrimFloat.ltb v (ACCELEROMETER_MIN_ACCELERATION_G hdr)
        || PrimFloat.ltb (ACCELEROMETER_MAX_ACCELERATION_G hdr) v).

(** *** Arbitration, as the specification words it *)

(** The report intervals the connected clients have set explicitly (non-zero). *)
Definition explicit_intervals (clients : CLIENT_MAP) : list ULONG :=
  filter (fun v => negb (v =? CURRENT_REPORT_INTERVAL_NOT_SET))
         (map (fun p => desiredReportInterval (snd p)) clients).

(** "The minimum over all connected clients' explicit desired intervals, or the
    configured default when no client has set one." *)
Definition spec_min_report_interval (default : ULONG) (clients : CLIENT_MAP) : ULONG :=
  match explicit_intervals clients with
  | [] => default
  | v :: vs => fold_left Z.min vs v
  end.

(** "At least one connected client has a desired interval >= 1." *)
Definition spec_explicit_flag (clients : CLIENT_MAP) : bool :=
  existsb (fun p => 1 <=? desiredReportInterval (snd p)) clients.

Definition is_null (v : PROPVARIANT) : bool :=
  match v with VT_NULL => true | _ => false end.

(** A floating-point value: the types change sensitivities are arbitrated for. *)
Definition numeric (v : PROPVARIANT) : bool :=
  match v with VT_R4 _ | VT_R8 _ => true | _ => false end.

(** The override a client holds for a field: its desired value, unless it is
    absent or cleared ([VT_NULL]). *)
Definition override_in (key : PROPERTYKEY) (vals : IPortableDeviceValues)
  : option PROPVARIANT :=
  match PDV.GetValue key vals with
  | Some v => if is_null v then None else Some v
  | None => None
  end.

Definition override (key : PROPERTYKEY) (e : CLIENT_ENTRY) : option PROPVARIANT :=
  override_in key (pDesiredSensitivityValues e).

(** The overrides of a field, from the first client of the map to the last. *)
Definition overrides (key : PROPERTYKEY) (clients : CLIENT_MAP) : list PROPVARIANT :=
  flat_map (fun p => match override key (snd p) with Some v => [v] | None => [] end)
           clients.

(** The smaller of two values of the same floating type, by the C macro [min]. *)
Definition variant_min (a b : PROPVARIANT) : PROPVARIANT :=
  match a, b with
  | VT_R4 x, VT_R4 y => VT_R4 (cmin x y)
  | VT_R8 x, VT_R8 y => VT_R8 (cmin x y)
  | _, _ => b
  end.

(** The minimum of the client overrides of a field when there is one, the
    configured default of the field otherwise. *)
Definition arbitrated_sensitivity (defaults : IPortableDeviceValues)
    (key : PROPERTYKEY) (clients : CLIENT_MAP) : option PROPVARIANT :=
  match overrides key clients with
  | [] => PDV.GetValue key defaults
  | v :: vs => Some (fold_left variant_min vs v)
  end.

(** Default change sensitivities a registry can be initialised with: one
    floating-point value for each field, no field twice. *)
Definition sensitivity_defaults (defaults : IPortableDeviceValues) : Prop :=
  NoDup (PDV.keys defaults) /\ Forall (fun p => numeric (snd p) = true) defaults.


(** What the last loop of [RecalculateProperties] makes of an entry. *)
Definition fill_default (defaults : IPortableDeviceValues)
    (p : PROPERTYKEY * PROPVARIANT) : PROPERTYKEY * PROPVARIANT :=
  (fst p,
   if is_null (snd p)
   then match PDV.GetValue (fst p) defaults with Some v => v | None => snd p end
   else snd p).

(** One override folded into the running minimum of its field. *)
Definition combine (acc v : PROPVARIANT) : PROPVARIANT :=
  if is_null acc then v else variant_min acc v.

(** One client's interval folded into the running minimum, as the loop does. *)
Definition interval_step (m d : ULONG) : ULONG :=
  if negb (d =? CURRENT_REPORT_INTERVAL_NOT_SET) && (d <? m) then d else m.

Definition desired_intervals (clients : CLIENT_MAP) : list ULONG :=
  map (fun p => desiredReportInterval (snd p)) clients.

(** The part of the manager that arbitration does not write. *)
Definition registry_frame (cm : CClientManager) :=
  (m_pClientList cm, m_ClientCount cm, m_SubscriberCount cm,
   m_spDefaultSensitivityValues cm, m_defaultReportInterval cm,
   m_minSupportedReportInterval cm).

(** The values of a collection are all unset or floating-point. *)
Definition null_or_numeric (mins : IPortableDeviceValues) : Prop :=
  forall k m, PDV.GetValue k mins = Some m -> is_null m || numeric m = true.

(** The desired values of one client: no key twice, and every value either
    cleared or a floating-point value of a supported key. *)
Definition desired_ok (supported : list PROPERTYKEY) (vals : IPortableDeviceValues) : Prop :=
  NoDup (PDV.keys vals) /\
  forall k v, In (k, v) vals -> is_null v = true \/ (numeric v = true /\ In k supported).

Definition clients_ok (supported : list PROPERTYKEY) (clients : CLIENT_MAP) : Prop :=
  Forall (fun p => desired_ok supported (pDesiredSensitivityValues (snd p))) clients.

(** What the code leaves in the interval fields: the running minimum starts
    from [ULONG_MAX], which also stands for "no client has set one". *)
Definition code_min_report_interval (default : ULONG) (clients : CLIENT_MAP) : ULONG :=
  let m := fold_left interval_step (desired_intervals clients) ULONG_MAX in
  if m =? ULONG_MAX then default else m.

Definition code_explicit_flag (clients : CLIENT_MAP) : bool :=
  existsb (fun d => negb (d =? CURRENT_REPORT_INTERVAL_NOT_SET) && (d <? ULONG_MAX))
          (desired_intervals clients).

(** The invariant of the registry: well-formed defaults and client values, and
    arbitrated settings that are those of the current client list. *)
Definition registry_inv (cm : CClientManager) : Prop :=
  sensitivity_defaults (m_spDefaultSensitivityValues cm) /\
  PDV.keys (m_spMinSensitivityValues cm) = PDV.keys (m_spDefaultSensitivityValues cm) /\
  clients_ok (PDV.keys (m_spDefaultSensitivityValues cm)) (m_pClientList cm) /\
  (forall key, In key (PDV.keys (m_spDefaultSensitivityValues cm)) ->
     PDV.GetValue key (m_spMinSensitivityValues cm)
       = arbitrated_sensitivity (m_spDefaultSensitivityValues cm) key (m_pClientList cm)) /\
  m_minReportInterval cm
    = code_min_report_interval (m_defaultReportInterval cm) (m_pClientList cm) /\
  m_minReportIntervalExplicitlySet cm = code_explicit_flag (m_pClientList cm).

(** *** Batches *)







(* ===================================================================== *)
(** * Part II: properties                                                 *)
(* ===================================================================== *)

(** ** Status codes *)

Lemma SUCCEEDED_FAILED (hr : HRESULT) : FAILED hr = negb (SUCCEEDED hr).
Proof. unfold FAILED, SUCCEEDED. destruct (Z.ltb_spec hr 0), (Z.leb_spec 0 hr); simpl; lia || reflexivity. Qed.

Lemma SUCCEEDED_S_OK : SUCCEEDED S_OK = true.
Proof. reflexivity. Qed.

Lemma FAILED_E_INVALIDARG : SUCCEEDED E_INVALIDARG = false.
Proof. reflexivity. Qed.

Lemma FAILED_WIN32 (x : Z) : 0 < x -> SUCCEEDED (HRESULT_FROM_WIN32 x) = false.
Proof.
  intros Hx. unfold HRESULT_FROM_WIN32, SUCCEEDED, to_signed32.
  destruct (Z.leb_spec x 0); [lia|].
  set (y := Z.lor _ _).
  assert (Hb : Z.testbit y 31 = true).
  { unfold y. rewrite Z.lor_spec. replace (Z.testbit 0x80000000 31) with true by reflexivity.
    apply orb_true_r. }
  assert (Hm : 2147483648 <= y mod 4294967296 < 4294967296).
  { assert (Hr : 0 <= y mod 4294967296 < 4294967296) by (apply Z.mod_pos_bound; lia).
    split; [|lia].
    destruct (Z_lt_le_dec (y mod 4294967296) 2147483648) as [Hlt|]; [|lia].
    exfalso.
    assert (Ht : Z.testbit (y mod 2 ^ 32) 31 = true).
    { rewrite Z.mod_pow2_bits_low by lia. exact Hb. }
    change (2 ^ 32) with 4294967296 in Ht.
    rewrite (Z.bits_above_log2 (y mod 4294967296) 31) in Ht; [discriminate | lia |].
    destruct (Z.eq_dec (y mod 4294967296) 0) as [-> | Hnz]; [simpl; lia|].
    apply Z.log2_lt_pow2; [lia|]. change (2 ^ 31) with 2147483648. lia. }
  destruct (Z.ltb_spec (y mod 4294967296) 2147483648); [lia|].
  apply Z.leb_gt. lia.
Qed.

(** ** C1: the data update mode *)


(** ** C4: failing registry calls *)

(** C4 (amended).  For a non-null client handle: disconnecting an id that is
    not registered fails and changes nothing, with the invalid-state error when
    the client count is 0 (or differs from the number of entries) and with the
    not-found error otherwise; subscribing an id that is already subscribed,
    and unsubscribing a registered id that is not subscribed, fail with the
    invalid-state error and change nothing.  "Nothing" is the whole manager:
    client list, both counts and the arbitrated settings. *)
Theorem failing_calls_leave_registry_unchanged (cm : CClientManager) (id : IWDFFile) :
  id <> nullptr ->
  match ClientMap.find id (m_pClientList cm) with
  | None =>
      Disconnect id cm =
        (if (m_ClientCount cm =? 0)
            || negb (ClientMap.size (m_pClientList cm) =? m_ClientCount cm)
         then HRESULT_FROM_WIN32 ERROR_INVALID_STATE
         else HRESULT_FROM_WIN32 ERROR_FILE_NOT_FOUND, cm)
  | Some e =>
      if fSubscribed e
      then Subscribe id cm = (HRESULT_FROM_WIN32 ERROR_INVALID_STATE, cm)
      else Unsubscribe id cm = (HRESULT_FROM_WIN32 ERROR_INVALID_STATE, cm)
  end /\
  SUCCEEDED (HRESULT_FROM_WIN32 ERROR_INVALID_STATE) = false /\
  SUCCEEDED (HRESULT_FROM_WIN32 ERROR_FILE_NOT_FOUND) = false.
Proof.
  intros Hid.
  assert (Hn : (id =? nullptr) = false) by (apply Z.eqb_neq; exact Hid).
  split; [| split; reflexivity].
  destruct (ClientMap.find id (m_pClientList cm)) as [e|] eqn:Hf.
  - destruct (fSubscribed e) eqn:Hs.
    + unfold Subscribe. rewrite Hn, Hf, Hs. reflexivity.
    + unfold Unsubscribe. rewrite Hn, Hf, Hs. reflexivity.
  - unfold Disconnect. rewrite Hn, Hf.
    destruct (m_ClientCount cm =? 0); [reflexivity|].
    destruct (negb _); reflexivity.
Qed.

(** With client 5 connected: disconnecting 9 is "not found", unsubscribing 5 is
    "invalid state"; once 5 is subscribed, subscribing it again is "invalid
    state"; the registry is the same after each. *)
Lemma failing_calls_witness :
  let cm1 := snd (Connect 5 example_registry) in
  let cm2 := snd (Subscribe 5 cm1) in
  Disconnect 9 cm1 = (HRESULT_FROM_WIN32 ERROR_FILE_NOT_FOUND, cm1) /\
  Unsubscribe 5 cm1 = (HRESULT_FROM_WIN32 ERROR_INVALID_STATE, cm1) /\
  Subscribe 5 cm2 = (HRESULT_FROM_WIN32 ERROR_INVALID_STATE, cm2).
Proof.
  split; [| split].
  - exact (proj1 (failing_calls_leave_registry_unchanged
                    (snd (Connect 5 example_registry)) 9 ltac:(discriminate))).
  - exact (proj1 (failing_calls_leave_registry_unchanged
                    (snd (Connect 5 example_registry)) 5 ltac:(discriminate))).
  - exact (proj1 (failing_calls_leave_registry_unchanged
                    (snd (Subscribe 5 (snd (Connect 5 example_registry)))) 5
                    ltac:(discriminate))).
Defined.

(** C4 as stated fails on a registry without clients: disconnecting the
    unregistered id 9 is answered with the invalid-state error, not with the
    not-found error. *)
Lemma disconnect_unregistered_on_empty_registry :
  ClientMap.find 9 (m_pClientList example_registry) = None /\
  fst (Disconnect 9 example_registry) = HRESULT_FROM_WIN32 ERROR_INVALID_STATE /\
  fst (Disconnect 9 example_registry) <> HRESULT_FROM_WIN32 ERROR_FILE_NOT_FOUND.
Proof.
  repeat split; vm_compute; discriminate.
Qed.

(** ** C8: GetSupportedEvents *)

Lemma write_at_idem {A : Type} (x : A) (l : list A) :
  write_at 0 x (write_at 0 x l) = write_at 0 x l.
Proof. destruct l; reflexivity. Qed.

Lemma events_loop_exit (events : list PROPERTYKEY) (pBuf : list (option GUID)) (it : Z) :
  events_loop events 0 0 pBuf it = (0, pBuf, it).
Proof.
  rewrite events_loop_equation_1.
  destruct (Z_lt_dec (ulong 0) (ulong 0)) as [H | H].
  - exfalso. revert H. change (ulong 0) with 0. lia.
  - reflexivity.
Qed.

(** From a count between 1 and 2^32 - 1 the loop only stops when [count] has
    wrapped to 0: the body runs [2^32 - count] times, always on cell 0. *)
Lemma events_loop_wraps (events : list PROPERTYKEY) (n : nat) :
  forall (count : ULONG) (pBuf : list (option GUID)) (it : Z),
    1 <= count < 4294967296 ->
    4294967296 - count = Z.of_nat (S n) ->
    events_loop events 0 count pBuf it =
      (0, write_at 0 (Some (fmtid (nth 0 events (mkKey 0 0)))) pBuf,
       it + (4294967296 - count)).
Proof.
  induction n as [| n IH]; intros count pBuf it Hc Hn.
  - assert (count = 4294967295) by lia. subst count.
    rewrite events_loop_equation_1.
    destruct (Z_lt_dec (ulong 0) (ulong 4294967295)) as [H | H];
      [| exfalso; apply H; change (0 < 4294967295); lia].
    unfold events_loop_unfold_clause_1.
    change (ulong (4294967295 + 1)) with 0.
    rewrite events_loop_exit. reflexivity.
  - rewrite events_loop_equation_1.
    assert (Hu : ulong count = count) by (unfold ulong; apply Z.mod_small; lia).
    destruct (Z_lt_dec (ulong 0) (ulong count)) as [H | H];
      [| exfalso; apply H; rewrite Hu; change (ulong 0) with 0; lia].
    unfold events_loop_unfold_clause_1.
    assert (Hu1 : ulong (count + 1) = count + 1) by (unfold ulong; apply Z.mod_small; lia).
    rewrite Hu1.
    change (Z.to_nat (ulong 0)) with 0%nat.
    rewrite (IH (count + 1)) by lia.
    rewrite write_at_idem. f_equal. lia.
Qed.

(** With [n >= 1] declared events and a buffer allocated, the call succeeds,
    but it reports 0 events, has written cell 0 only, and its loop ran
    [2^32 - n] times. *)
Lemma GetSupportedEvents_result (events : list PROPERTYKEY) :
  1 <= Z.of_nat (length events) < 4294967296 ->
  GetSupportedEvents events true =
    (S_OK,
     Some (write_at 0 (Some (fmtid (nth 0 events (mkKey 0 0))))
                    (repeat None (length events))),
     0, 4294967296 - Z.of_nat (length events)).
Proof.
  intros Hn. unfold GetSupportedEvents.
  destruct (Z.to_nat (4294967296 - Z.of_nat (length events))) as [| m] eqn:Hm; [lia|].
  rewrite (events_loop_wraps events m) by lia.
  reflexivity.
Qed.

(** C8.  On the accelerometer's two declared events, a successful
    [GetSupportedEvents] returns an event count of 0 (not 2), a buffer whose
    second entry was never written, after 4294967294 loop iterations (not 2):
    the loop increments [count] where it should increment [i]. *)
Theorem GetSupportedEvents_accelerometer :
  GetSupportedEvents g_SupportedAccelerometerEvents true =
    (S_OK, Some [Some SENSOR_EVENT_DATA_UPDATED; None], 0, 4294967294).
Proof.
  rewrite GetSupportedEvents_result.
  - reflexivity.
  - change (1 <= 2 < 4294967296). lia.
Qed.

(** ** C9: the report throttle *)

Lemma spaced_weaken (t : Z) (l : list ReportManager.report) :
  ReportManager.spaced (Some t) l -> ReportManager.spaced None l.
Proof. destruct l; simpl; tauto. Qed.

Lemma step_last_report (e : ReportManager.event) (rm : ReportManager.CReportManager) :
  match snd (ReportManager.step e rm) with
  | [] => ReportManager.m_LastReportTickCount (fst (ReportManager.step e rm))
          = ReportManager.m_LastReportTickCount rm
  | [r] => ReportManager.m_LastReportTickCount (fst (ReportManager.step e rm))
           = ReportManager.report_time r
           /\ ReportManager.report_interval_then r
              <= ReportManager.report_time r - ReportManager.m_LastReportTickCount rm
  | _ => False
  end.
Proof.
  destruct e as [v | | v | | now]; simpl; try reflexivity.
  - unfold ReportManager.start. destruct (ReportManager.m_fDataEventingThreadActive rm); reflexivity.
  - unfold ReportManager.wake.
    destruct (ReportManager.m_fDataEventingThreadActive rm); simpl; [| reflexivity].
    destruct (Z.leb_spec (ReportManager.m_ReportInterval rm)
                         (now - ReportManager.m_LastReportTickCount rm)); simpl; [| reflexivity].
    destruct (ReportManager.m_fPendingData rm); simpl; [| reflexivity].
    split; [reflexivity | assumption].
Qed.

(** Every report is at least its interval after the report before it, the
    first one after the last report time the throttle started with. *)
Lemma run_spaced (evs : list ReportManager.event) :
  forall rm, ReportManager.spaced (Some (ReportManager.m_LastReportTickCount rm))
                                  (snd (ReportManager.run evs rm)).
Proof.
  induction evs as [| e evs IH]; intros rm; simpl; [exact I|].
  pose proof (step_last_report e rm) as Hs.
  destruct (ReportManager.step e rm) as [rm1 out1]. simpl in Hs.
  specialize (IH rm1).
  destruct (ReportManager.run evs rm1) as [rm2 out2]. simpl in *.
  destruct out1 as [| r [| r' out1]]; simpl.
  - rewrite <- Hs. exact IH.
  - destruct Hs as [Hl Hi]. split; [exact Hi|]. rewrite <- Hl. exact IH.
  - contradiction.
Qed.

Lemma run_inactive (evs : list ReportManager.event) :
  forall rm,
    ReportManager.m_fDataEventingThreadActive rm = false ->
    forallb (fun e => negb (ReportManager.is_start e)) evs = true ->
    snd (ReportManager.run evs rm) = [].
Proof.
  induction evs as [| e evs IH]; intros rm Hoff Hns; simpl; [reflexivity|].
  simpl in Hns. apply andb_true_iff in Hns. destruct Hns as [He Hns].
  assert (Hstep : snd (ReportManager.step e rm) = []
                  /\ ReportManager.m_fDataEventingThreadActive
                       (fst (ReportManager.step e rm)) = false).
  { destruct e as [v | | v | | now]; simpl in *; try discriminate; try (split; [reflexivity | assumption]).
    - split; reflexivity.
    - unfold ReportManager.wake. rewrite Hoff. simpl. split; [reflexivity | assumption]. }
  destruct (ReportManager.step e rm) as [rm1 out1]. simpl in Hstep.
  destruct Hstep as [-> Hoff1].
  specialize (IH rm1 Hoff1 Hns).
  destruct (ReportManager.run evs rm1) as [rm2 out2]. simpl in *. exact IH.
Qed.

(** C9.  Whatever happens to the throttle (starts, stops, interval changes,
    new-data signals and wakes at any ticks), two consecutive reports are at
    least as far apart as the report interval in effect when the later one is
    emitted; and once [stop] has returned, no event sequence without a new
    [start] emits a report. *)
Theorem throttle_spacing_and_stop
    (before after : list ReportManager.event) (rm : ReportManager.CReportManager) :
  forallb (fun e => negb (ReportManager.is_start e)) after = true ->
  ReportManager.spaced None (snd (ReportManager.run before rm)) /\
  snd (ReportManager.run after (ReportManager.stop (fst (ReportManager.run before rm)))) = [].
Proof.
  intros Hns. split.
  - eapply spaced_weaken. apply run_spaced.
  - apply run_inactive; [reflexivity | exact Hns].
Qed.

(** A started throttle with a 100-tick interval: data at ticks 10, 120 and 150
    gives reports at 120 and 250 only, and none after [stop]. *)
Lemma throttle_witness :
  let before := [ReportManager.EvStart 100; ReportManager.EvNewData;
                 ReportManager.EvWake 10; ReportManager.EvWake 120;
                 ReportManager.EvNewData; ReportManager.EvWake 150;
                 ReportManager.EvWake 250] in
  let after := [ReportManager.EvNewData; ReportManager.EvWake 400;
                ReportManager.EvSetReportInterval 1; ReportManager.EvWake 900] in
  let rm := ReportManager.Initialize 1000 in
  snd (ReportManager.run before rm)
    = [ReportManager.mkReport 120 100; ReportManager.mkReport 250 100] /\
  ReportManager.spaced None (snd (ReportManager.run before rm)) /\
  snd (ReportManager.run after (ReportManager.stop (fst (ReportManager.run before rm)))) = [].
Proof.
  split; [reflexivity|].
  apply (throttle_spacing_and_stop
           [ReportManager.EvStart 100; ReportManager.EvNewData;
            ReportManager.EvWake 10; ReportManager.EvWake 120;
            ReportManager.EvNewData; ReportManager.EvWake 150;
            ReportManager.EvWake 250]
           [ReportManager.EvNewData; ReportManager.EvWake 400;
            ReportManager.EvSetReportInterval 1; ReportManager.EvWake 900]
           (ReportManager.Initialize 1000)).
  reflexivity.
Defined.

(** ** Bus transfers leave the driver's own state alone *)

(** Everything of the device except the data buffer, the test registers, the
    interrupt mask and the environment. *)
Definition driver_state (d : CAccelerometerDevice) :=
  (m_spSensorPropertyValues d, m_spSensorDataFieldValues d, m_pClientManager d,
   m_pReportManager d, m_fStateChanged d, m_fSensorInitialized d, m_DataUpdateMode d,
   m_fInitialized d).

Lemma spb_request_frame (op : SpbOp) (d : CAccelerometerDevice) :
  driver_state (snd (spb_request op d)) = driver_state d.
Proof. unfold spb_request. destruct (spb_script d); reflexivity. Qed.

Lemma WriteRegister_frame (reg : BYTE) (data : list BYTE) (d : CAccelerometerDevice) :
  driver_state (snd (WriteRegister reg data d)) = driver_state d.
Proof.
  unfold WriteRegister. destruct (m_fInitialized d); [| reflexivity].
  pose proof (spb_request_frame (SpbWrite reg data) d) as H.
  destruct (spb_request (SpbWrite reg data) d). exact H.
Qed.

Lemma ReadRegister_frame (reg : BYTE) (len : Z) (d : CAccelerometerDevice) :
  driver_state (snd (ReadRegister reg len d)) = driver_state d.
Proof.
  unfold ReadRegister. destruct (m_fInitialized d); [| reflexivity].
  pose proof (spb_request_frame (SpbRead reg len) d) as H.
  destruct (spb_request (SpbRead reg len) d). exact H.
Qed.

Lemma GetTestProperty_frame (hdr : DeviceHeaders) (key : PROPERTYKEY)
    (d : CAccelerometerDevice) :
  driver_state (snd (GetTestProperty hdr key d)) = driver_state d.
Proof.
  unfold GetTestProperty. destruct (m_fInitialized d); [| reflexivity].
  repeat (match goal with |- context [if ?b then _ else _] => destruct b end;
          try reflexivity).
  pose proof (ReadRegister_frame (m_TestRegister d mod 256) (m_TestDataSize d) d) as H.
  destruct (ReadRegister _ _ d) as [[hr data] d1]. simpl in H.
  destruct (SUCCEEDED hr); exact H.
Qed.

Lemma GetProperty_frame (hdr : DeviceHeaders) (key : PROPERTYKEY)
    (d : CAccelerometerDevice) :
  driver_state (snd (GetProperty hdr key d)) = driver_state d.
Proof.
  unfold GetProperty. destruct (IsTestProperty hdr key); [apply GetTestProperty_frame|].
  destruct (_ || _).
  - destruct (GetArbitratedProperty key (m_pClientManager d)); reflexivity.
  - destruct (PDV.GetValue key (m_spSensorPropertyValues d)); reflexivity.
Qed.


Lemma SetState_report_manager (hdr : DeviceHeaders) (newState : Z)
    (d : CAccelerometerDevice) :
  m_pReportManager (snd (SetState hdr newState d)) = m_pReportManager d /\
  m_pClientManager (snd (SetState hdr newState d)) = m_pClientManager d /\
  m_spSensorDataFieldValues (snd (SetState hdr newState d)) = m_spSensorDataFieldValues d.
Proof.
  unfold SetState.
  pose proof (GetProperty_frame hdr SENSOR_PROPERTY_STATE d) as H.
  destruct (GetProperty hdr SENSOR_PROPERTY_STATE d) as [[hr var] d1]. simpl in H.
  unfold driver_state in H. injection H as H1 H2 H3 H4 H5 H6 H7 H8.
  destruct (SUCCEEDED hr); [| simpl; auto].
  destruct (negb _); simpl; auto.
Qed.

(** ** C10: when the report manager hears of new data *)






(** ** C7: committing the data update mode *)

(** The mode field takes the new mode exactly when the device-state call
    reports success. *)
Lemma SetDataUpdateMode_commit (hdr : DeviceHeaders) (Mode : DATA_UPDATE_MODE)
    (d : CAccelerometerDevice) :
  m_DataUpdateMode (snd (SetDataUpdateMode hdr Mode d)) =
    (if SUCCEEDED (fst (SetDataUpdateMode hdr Mode d)) then Mode else m_DataUpdateMode d).
Proof.
  unfold SetDataUpdateMode.
  assert (H : forall f : CAccelerometerDevice -> HRESULT * CAccelerometerDevice,
             (forall x, m_DataUpdateMode (snd (f x)) = m_DataUpdateMode x) ->
             m_DataUpdateMode
               (snd (let (hr, d0) := f d in
                     if SUCCEEDED hr then (hr, set_DataUpdateMode Mode d0) else (hr, d0))) =
             (if SUCCEEDED
                   (fst (let (hr, d0) := f d in
                         if SUCCEEDED hr then (hr, set_DataUpdateMode Mode d0) else (hr, d0)))
              then Mode else m_DataUpdateMode d)).
  { intros f Hf. specialize (Hf d). destruct (f d) as [hr d0]. simpl in Hf.
    destruct (SUCCEEDED hr) eqn:Hs; simpl; rewrite Hs; [reflexivity | exact Hf]. }
  assert (Hw : forall reg data x,
             m_DataUpdateMode (snd (WriteRegister reg data x)) = m_DataUpdateMode x).
  { intros. pose proof (WriteRegister_frame reg data x) as E. unfold driver_state in E.
    injection E; auto. }
  assert (Hrd : forall reg len x,
             m_DataUpdateMode (snd (ReadRegister reg len x)) = m_DataUpdateMode x).
  { intros. pose proof (ReadRegister_frame reg len x) as E. unfold driver_state in E.
    injection E; auto. }
  destruct Mode; apply H; intros x.
  - unfold SetDeviceStateStandby.
    pose proof (Hw (ADXL345_INT_ENABLE hdr) [0] x) as E1.
    destruct (WriteRegister (ADXL345_INT_ENABLE hdr) [0] x) as [hr1 x1]. simpl in E1.
    set (x2 := if FAILED hr1 then x1 else set_InterruptsEnabled 0 x1).
    assert (E2 : m_DataUpdateMode x2 = m_DataUpdateMode x)
      by (unfold x2; destruct (FAILED hr1); exact E1).
    destruct (SUCCEEDED hr1).
    + pose proof (Hrd (ADXL345_INT_SOURCE hdr) 1 x2) as E3.
      destruct (ReadRegister (ADXL345_INT_SOURCE hdr) 1 x2) as [[hr3 b] x3]. simpl in E3.
      pose proof (Hw (ADXL345_POWER_CTL hdr) [ADXL345_POWER_CTL_STANDBY hdr] x3) as E4.
      destruct (WriteRegister (ADXL345_POWER_CTL hdr) _ x3). simpl in *. congruence.
    + pose proof (Hw (ADXL345_POWER_CTL hdr) [ADXL345_POWER_CTL_STANDBY hdr] x2) as E4.
      destruct (WriteRegister (ADXL345_POWER_CTL hdr) _ x2). simpl in *. congruence.
  - unfold SetDeviceStatePolling.
    pose proof (Hw (ADXL345_INT_ENABLE hdr) [0] x) as E1.
    destruct (WriteRegister (ADXL345_INT_ENABLE hdr) [0] x) as [hr1 x1]. simpl in E1.
    set (x2 := if FAILED hr1 then x1 else set_InterruptsEnabled 0 x1).
    assert (E2 : m_DataUpdateMode x2 = m_DataUpdateMode x)
      by (unfold x2; destruct (FAILED hr1); exact E1).
    destruct (SUCCEEDED hr1); [| exact E2].
    rewrite Hw. exact E2.
  - unfold SetDeviceStateEventing.
    pose proof (Hw (ADXL345_POWER_CTL hdr) [ADXL345_POWER_CTL_MEASURE hdr] x) as E1.
    destruct (WriteRegister (ADXL345_POWER_CTL hdr) _ x) as [hr1 x1]. simpl in E1.
    destruct (SUCCEEDED hr1); [| exact E1].
    pose proof (Hw (ADXL345_INT_ENABLE hdr) [ADXL345_INT_ACTIVITY hdr] x1) as E2.
    destruct (WriteRegister (ADXL345_INT_ENABLE hdr) _ x1) as [hr2 x2]. simpl in *.
    destruct (FAILED hr2); simpl; congruence.
Qed.

Lemma WriteRegister_mode (reg : BYTE) (data : list BYTE) (d : CAccelerometerDevice) :
  m_DataUpdateMode (snd (WriteRegister reg data d)) = m_DataUpdateMode d.
Proof.
  pose proof (WriteRegister_frame reg data d) as E. unfold driver_state in E.
  injection E; auto.
Qed.

(** Steps through a chain of register writes guarded by [SUCCEEDED]. *)
Ltac step_writes :=
  repeat (simpl;
    match goal with
    | H : SUCCEEDED ?h = _ |- context [SUCCEEDED ?h] => rewrite H
    | |- context [WriteRegister ?r ?x ?d] =>
        let E := fresh "E" in
        let hr := fresh "hr" in
        let d' := fresh "d" in
        pose proof (WriteRegister_mode r x d) as E;
        destruct (WriteRegister r x d) as [hr d']; simpl in E
    | |- context [if SUCCEEDED ?h then _ else _] => destruct (SUCCEEDED h) eqn:?
    end);
  simpl; congruence.

Lemma SetReportInterval_mode (hdr : DeviceHeaders) (v : ULONG) (d : CAccelerometerDevice) :
  m_DataUpdateMode (snd (SetReportInterval hdr v d)) = m_DataUpdateMode d.
Proof.
  unfold SetReportInterval. destruct (m_fInitialized d); [| reflexivity].
  step_writes.
Qed.

Lemma SetChangeSensitivity_mode (hdr : DeviceHeaders) (v : PROPVARIANT)
    (d : CAccelerometerDevice) :
  m_DataUpdateMode (snd (SetChangeSensitivity hdr v d)) = m_DataUpdateMode d.
Proof.
  unfold SetChangeSensitivity. destruct (m_fInitialized d); [| reflexivity].
  destruct v; try reflexivity.
  step_writes.
Qed.

(** What the code does guarantee: an apply that returns a failure leaves the
    committed mode as it was. *)
Lemma ApplyUpdatedProperties_failure_keeps_mode (hdr : DeviceHeaders)
    (d : CAccelerometerDevice) :
  SUCCEEDED (fst (ApplyUpdatedProperties hdr d)) = false ->
  m_DataUpdateMode (snd (ApplyUpdatedProperties hdr d)) = m_DataUpdateMode d.
Proof.
  unfold ApplyUpdatedProperties.
  set (step1 := if m_fSensorInitialized d then _ else _).
  assert (H1 : m_DataUpdateMode (snd step1) = m_DataUpdateMode d).
  { unfold step1. destruct (m_fSensorInitialized d); [| reflexivity].
    destruct (GetArbitratedProperty SENSOR_PROPERTY_CURRENT_REPORT_INTERVAL _) as [hr0 var0].
    set (step0 := if SUCCEEDED hr0 then _ else _).
    assert (H0 : m_DataUpdateMode (snd step0) = m_DataUpdateMode d).
    { unfold step0. destruct (SUCCEEDED hr0); [| reflexivity].
      pose proof (SetReportInterval_mode hdr (get_ulVal var0) d) as E.
      destruct (SetReportInterval hdr (get_ulVal var0) d) as [hr d1]. simpl in E.
      destruct (SUCCEEDED hr); exact E. }
    destruct step0 as [hr d1]. simpl in H0.
    destruct (SUCCEEDED hr); [| exact H0].
    destruct (GetArbitratedProperty SENSOR_PROPERTY_CHANGE_SENSITIVITY _) as [hr2 var2].
    destruct (SUCCEEDED hr2); [| exact H0].
    rewrite SetChangeSensitivity_mode. exact H0. }
  destruct step1 as [hr d1]. simpl in H1.
  destruct (SUCCEEDED hr) eqn:Hs; [| intros _; exact H1].
  destruct (negb _).
  - intros Hf. rewrite SetDataUpdateMode_commit, Hf. exact H1.
  - simpl. rewrite Hs. discriminate.
Qed.

(** C7.  The last client has gone, the committed mode is still [Polling], and
    the interrupt-disable write of [SetDeviceStateStandby] fails on the bus (the
    seventh transfer of the apply) while the standby write after it succeeds:
    [ApplyUpdatedProperties] returns [S_OK] and commits [Off].  The failure of
    the hardware step is neither returned nor does it keep the previous mode;
    the same holds of [SetDataUpdateMode] called directly. *)
Theorem standby_masks_a_failed_step :
  let ok := mkReply S_OK [] in
  let failure := mkReply E_FAIL [] in
  let d := example_device example_registry DataUpdateModePolling
             [ok; ok; ok; ok; ok; ok; failure; ok] in
  let d' := example_device example_registry DataUpdateModePolling [failure; ok] in
  SUCCEEDED E_FAIL = false /\
  m_DataUpdateMode d = DataUpdateModePolling /\
  fst (ApplyUpdatedProperties example_headers d) = S_OK /\
  m_DataUpdateMode (snd (ApplyUpdatedProperties example_headers d)) = DataUpdateModeOff /\
  spb_script (snd (ApplyUpdatedProperties example_headers d)) = [] /\
  nth_error (spb_log (snd (ApplyUpdatedProperties example_headers d))) 6
    = Some (SpbWrite (ADXL345_INT_ENABLE example_headers) [0]) /\
  fst (SetDataUpdateMode example_headers DataUpdateModeOff d') = S_OK /\
  m_DataUpdateMode (snd (SetDataUpdateMode example_headers DataUpdateModeOff d'))
    = DataUpdateModeOff.
Proof.
  cbv zeta. repeat split; vm_compute; reflexivity.
Qed.

(** ** C6: range validation of a sample *)

(** C6 (amended).  When the data registers are read successfully, the three
    axis values are validated in the order X, Y, Z.  The result set holds the
    values up to the first one out of range, and nothing else (no error entry);
    the read returns [E_INVALIDARG] unless all three are in range.  A sample
    with a value out of range leaves the data cache untouched on the polling
    path and on the interrupt path alike; a sample in range is merged, all
    three fields, together with a timestamp. *)
Theorem sample_validation (hdr : DeviceHeaders) (d : CAccelerometerDevice)
    (r : SpbReply) (rest : list SpbReply) :
  m_fInitialized d = true ->
  spb_script d = r :: rest ->
  SUCCEEDED (reply_hr r) = true ->
  let byte i := nth i (reply_data r) 0 in
  let x := acceleration (byte 0%nat) (byte 1%nat) in
  let y := acceleration (byte 2%nat) (byte 3%nat) in
  let z := acceleration (byte 4%nat) (byte 5%nat) in
  let accepted :=
    if in_range hdr x then
      (SENSOR_DATA_TYPE_ACCELERATION_X_G, VT_R8 x) ::
      (if in_range hdr y then
         (SENSOR_DATA_TYPE_ACCELERATION_Y_G, VT_R8 y) ::
         (if in_range hdr z then [(SENSOR_DATA_TYPE_ACCELERATION_Z_G, VT_R8 z)] else [])
       else [])
    else [] in
  let all_in_range := in_range hdr x && in_range hdr y && in_range hdr z in
  fst (fst (RequestData hdr [] d)) = (if all_in_range then S_OK else E_INVALIDARG) /\
  snd (fst (RequestData hdr [] d)) = accepted /\
  m_spSensorDataFieldValues (snd (PollForData hdr d)) =
    (if all_in_range
     then PDV.SetValue SENSOR_DATA_TYPE_TIMESTAMP (VT_FILETIME (system_time d))
            (update_cache accepted (m_spSensorDataFieldValues d))
     else m_spSensorDataFieldValues d) /\
  m_spSensorDataFieldValues (snd (OnInterruptWorkItem hdr d)) =
    (if all_in_range
     then update_cache accepted
            (PDV.SetValue SENSOR_DATA_TYPE_TIMESTAMP (VT_FILETIME (system_time d))
                          (m_spSensorDataFieldValues d))
     else m_spSensorDataFieldValues d).
Proof.
  intros Hinit Hscript Hok byte x y z accepted all_in_range.
  assert (Hreq : RequestData hdr [] d =
                 (if all_in_range then S_OK else E_INVALIDARG, accepted,
                  set_DataBuffer (reply_data r)
                                 (set_spb rest (spb_log d ++
                                    [SpbRead (ADXL345_DATA_X0 hdr)
                                             (ADXL345_DATA_REPORT_SIZE_BYTES hdr)]) d))).
  { unfold RequestData, ReadRegister, spb_request. rewrite Hinit, Hscript.
    cbv zeta. rewrite Hok.
    change (m_pDataBuffer (set_DataBuffer (reply_data r) _)) with (reply_data r).
    change (PrimFloat.mul (double_of_SHORT (to_signed16
              (Z.lor (Z.shiftl (nth 1 (reply_data r) 0) 8) (nth 0 (reply_data r) 0))))
              scaleFactor) with x.
    change (PrimFloat.mul (double_of_SHORT (to_signed16
              (Z.lor (Z.shiftl (nth 3 (reply_data r) 0) 8) (nth 2 (reply_data r) 0))))
              scaleFactor) with y.
    change (PrimFloat.mul (double_of_SHORT (to_signed16
              (Z.lor (Z.shiftl (nth 5 (reply_data r) 0) 8) (nth 4 (reply_data r) 0))))
              scaleFactor) with z.
    subst accepted all_in_range. unfold in_range, AddDataFieldValue.
    clearbody x y z. clear byte.
    destruct (PrimFloat.ltb x (ACCELEROMETER_MIN_ACCELERATION_G hdr)),
             (PrimFloat.ltb (ACCELEROMETER_MAX_ACCELERATION_G hdr) x),
             (PrimFloat.ltb y (ACCELEROMETER_MIN_ACCELERATION_G hdr)),
             (PrimFloat.ltb (ACCELEROMETER_MAX_ACCELERATION_G hdr) y),
             (PrimFloat.ltb z (ACCELEROMETER_MIN_ACCELERATION_G hdr)),
             (PrimFloat.ltb (ACCELEROMETER_MAX_ACCELERATION_G hdr) z); reflexivity. }
  split; [rewrite Hreq; reflexivity|].
  split; [rewrite Hreq; reflexivity|].
  split.
  - unfold PollForData, RequestNewData. cbv zeta. rewrite Hinit, Hreq.
    destruct all_in_range.
    + rewrite SUCCEEDED_S_OK. unfold SetTimeStamp. rewrite SUCCEEDED_S_OK.
      match goal with |- context [SetState hdr ?s ?v] =>
        pose proof (SetState_report_manager hdr s v) as (_ & _ & Hc) end.
      rewrite Hc. reflexivity.
    + rewrite FAILED_E_INVALIDARG. reflexivity.
  - unfold OnInterruptWorkItem. cbv zeta. rewrite Hreq.
    destruct all_in_range.
    + rewrite SUCCEEDED_S_OK. unfold DataAvailable, SetTimeStamp. rewrite SUCCEEDED_S_OK.
      match goal with |- context [SetState hdr ?s ?v] =>
        pose proof (SetState_report_manager hdr s v) as (_ & _ & Hc);
        destruct (SetState hdr s v) as [hr2 d2] end.
      simpl in Hc.
      destruct (SUCCEEDED hr2); simpl; [unfold RaiseDataEvent; destruct (0 <? _); simpl|];
        rewrite Hc; reflexivity.
    + rewrite FAILED_E_INVALIDARG. reflexivity.
Qed.

(** A device at rest: 0 g, 0 g and 1 g are read, added and merged. *)
Lemma sample_validation_witness :
  let d := example_device example_registry DataUpdateModePolling
             [mkReply S_OK [0; 0; 0; 0; 0; 1]] in
  fst (RequestData example_headers [] d) =
    (S_OK, [ (SENSOR_DATA_TYPE_ACCELERATION_X_G, VT_R8 0);
             (SENSOR_DATA_TYPE_ACCELERATION_Y_G, VT_R8 0);
             (SENSOR_DATA_TYPE_ACCELERATION_Z_G, VT_R8 1) ]) /\
  m_spSensorDataFieldValues (snd (PollForData example_headers d)) =
    [ (SENSOR_DATA_TYPE_TIMESTAMP, VT_FILETIME 0);
      (SENSOR_DATA_TYPE_ACCELERATION_X_G, VT_R8 0);
      (SENSOR_DATA_TYPE_ACCELERATION_Y_G, VT_R8 0);
      (SENSOR_DATA_TYPE_ACCELERATION_Z_G, VT_R8 1) ].
Proof.
  pose proof (sample_validation example_headers
                (example_device example_registry DataUpdateModePolling
                                [mkReply S_OK [0; 0; 0; 0; 0; 1]])
                (mkReply S_OK [0; 0; 0; 0; 0; 1]) [] eq_refl eq_refl eq_refl)
    as (H1 & H2 & H3 & _).
  split.
  - apply injective_projections; [exact H1 | exact H2].
  - exact H3.
Defined.

(** C6 as stated fails when the X registers read 0x7FFF (127.996 g, outside
    +-16 g) while Y and Z read 0 g and 1 g: the two values in range are not
    added to the result set, no error entry is recorded for X, and the cache
    keeps its old content. *)
Lemma out_of_range_x_discards_the_sample :
  let d := example_device example_registry DataUpdateModePolling
             [mkReply S_OK [255; 127; 0; 0; 0; 1]] in
  in_range example_headers (acceleration 255 127) = false /\
  in_range example_headers (acceleration 0 0) = true /\
  in_range example_headers (acceleration 0 1) = true /\
  fst (RequestData example_headers [] d) = (E_INVALIDARG, []) /\
  m_spSensorDataFieldValues (snd (PollForData example_headers d))
    = m_spSensorDataFieldValues d /\
  m_spSensorDataFieldValues (snd (OnInterruptWorkItem example_headers d))
    = m_spSensorDataFieldValues d.
Proof.
  cbv zeta. repeat split; vm_compute; reflexivity.
Qed.

(** ** Collections and maps *)

Lemma IsEqualPropertyKey_spec (a b : PROPERTYKEY) :
  reflect (a = b) (IsEqualPropertyKey a b).
Proof.
  unfold IsEqualPropertyKey. destruct a as [fa pa], b as [fb pb]. simpl.
  destruct (Z.eqb_spec pa pb), (Z.eqb_spec fa fb); simpl; constructor; congruence.
Qed.

Lemma IsEqualPropertyKey_refl (k : PROPERTYKEY) : IsEqualPropertyKey k k = true.
Proof. destruct (IsEqualPropertyKey_spec k k); congruence. Qed.

Lemma IsEqualPropertyKey_neq (a b : PROPERTYKEY) : a <> b -> IsEqualPropertyKey a b = false.
Proof. destruct (IsEqualPropertyKey_spec a b); congruence. Qed.

Lemma GetValue_SetValue_same (k : PROPERTYKEY) (v : PROPVARIANT) (l : IPortableDeviceValues) :
  PDV.GetValue k (PDV.SetValue k v l) = Some v.
Proof.
  induction l as [| [k' v'] l IH]; simpl.
  - rewrite IsEqualPropertyKey_refl. reflexivity.
  - destruct (IsEqualPropertyKey k k') eqn:E; simpl; rewrite E; auto.
Qed.

Lemma GetValue_SetValue_other (k k' : PROPERTYKEY) (v : PROPVARIANT)
    (l : IPortableDeviceValues) :
  k <> k' -> PDV.GetValue k' (PDV.SetValue k v l) = PDV.GetValue k' l.
Proof.
  intros Hne. induction l as [| [k0 v0] l IH]; simpl.
  - rewrite IsEqualPropertyKey_neq by congruence. reflexivity.
  - destruct (IsEqualPropertyKey_spec k k0) as [-> | Hk]; simpl.
    + rewrite (IsEqualPropertyKey_neq k' k0) by congruence. reflexivity.
    + rewrite IH. reflexivity.
Qed.

Lemma GetValue_None (k : PROPERTYKEY) (l : IPortableDeviceValues) :
  PDV.GetValue k l = None <-> ~ In k (PDV.keys l).
Proof.
  induction l as [| [k0 v0] l IH]; simpl.
  - tauto.
  - destruct (IsEqualPropertyKey_spec k k0) as [-> | Hk].
    + split; [discriminate | intros H; exfalso; apply H; left; reflexivity].
    + rewrite IH. split; [intros H [E | Hin]; [congruence | contradiction] | tauto].
Qed.

Lemma GetValue_Some_key (k : PROPERTYKEY) (v : PROPVARIANT) (l : IPortableDeviceValues) :
  PDV.GetValue k l = Some v -> In k (PDV.keys l).
Proof.
  intros H. destruct (in_dec (fun a b => Bool.reflect_dec _ _ (IsEqualPropertyKey_spec a b))
                             k (PDV.keys l)) as [Hin | Hn]; [exact Hin|].
  apply GetValue_None in Hn. congruence.
Qed.

Lemma GetValue_In (k : PROPERTYKEY) (v : PROPVARIANT) (l : IPortableDeviceValues) :
  PDV.GetValue k l = Some v -> In (k, v) l.
Proof.
  induction l as [| [k0 v0] l IH]; simpl; [discriminate|].
  destruct (IsEqualPropertyKey_spec k k0) as [-> | Hk].
  - intros [= ->]. left. reflexivity.
  - intros H. right. auto.
Qed.

Lemma In_GetValue (k : PROPERTYKEY) (v : PROPVARIANT) (l : IPortableDeviceValues) :
  NoDup (PDV.keys l) -> In (k, v) l -> PDV.GetValue k l = Some v.
Proof.
  induction l as [| [k0 v0] l IH]; simpl; [tauto|].
  intros Hnd [E | Hin].
  - injection E as -> ->. rewrite IsEqualPropertyKey_refl. reflexivity.
  - inversion Hnd as [| ? ? Hnot Hnd']; subst.
    destruct (IsEqualPropertyKey_spec k k0) as [-> | Hk].
    + exfalso. apply Hnot. change (In (fst (k0, v)) (map fst l)). apply in_map. exact Hin.
    + auto.
Qed.

Lemma keys_SetValue_present (k : PROPERTYKEY) (v : PROPVARIANT) (l : IPortableDeviceValues) :
  In k (PDV.keys l) -> PDV.keys (PDV.SetValue k v l) = PDV.keys l.
Proof.
  induction l as [| [k0 v0] l IH]; simpl; [tauto|].
  intros H. destruct (IsEqualPropertyKey_spec k k0) as [-> | Hk]; simpl.
  - reflexivity.
  - f_equal. apply IH. destruct H; [congruence | assumption].
Qed.

Lemma SetValue_absent (k : PROPERTYKEY) (v : PROPVARIANT) (l : IPortableDeviceValues) :
  ~ In k (PDV.keys l) -> PDV.SetValue k v l = l ++ [(k, v)].
Proof.
  induction l as [| [k0 v0] l IH]; simpl; [reflexivity|].
  intros H. rewrite IsEqualPropertyKey_neq by (intros ->; apply H; left; reflexivity).
  f_equal. apply IH. tauto.
Qed.

Lemma SetValue_in_place (k : PROPERTYKEY) (v v0 : PROPVARIANT)
    (pre post : IPortableDeviceValues) :
  ~ In k (PDV.keys pre) ->
  PDV.SetValue k v (pre ++ (k, v0) :: post) = pre ++ (k, v) :: post.
Proof.
  induction pre as [| [k1 v1] pre IH]; simpl; intros H.
  - rewrite IsEqualPropertyKey_refl. reflexivity.
  - rewrite IsEqualPropertyKey_neq by (intros ->; apply H; left; reflexivity).
    f_equal. apply IH. tauto.
Qed.

Lemma NoDup_keys_SetValue (k : PROPERTYKEY) (v : PROPVARIANT) (l : IPortableDeviceValues) :
  NoDup (PDV.keys l) -> NoDup (PDV.keys (PDV.SetValue k v l)).
Proof.
  intros Hnd.
  destruct (in_dec (fun a b => Bool.reflect_dec _ _ (IsEqualPropertyKey_spec a b))
                   k (PDV.keys l)) as [Hin | Hn].
  - rewrite keys_SetValue_present by assumption. exact Hnd.
  - rewrite SetValue_absent by assumption. unfold PDV.keys. rewrite map_app. simpl.
    apply NoDup_app; auto.
    + constructor; [simpl; tauto | constructor].
    + intros x Hx [<- | []]. contradiction.
Qed.

Lemma CopyValues_from_fresh (src tgt : IPortableDeviceValues) :
  NoDup (PDV.keys (tgt ++ src)) -> CopyValues_from src tgt = tgt ++ src.
Proof.
  revert tgt. induction src as [| [k v] src IH]; intros tgt Hnd; simpl.
  - rewrite app_nil_r. reflexivity.
  - assert (Hn : ~ In k (PDV.keys tgt)).
    { unfold PDV.keys in Hnd. rewrite map_app in Hnd. simpl in Hnd.
      apply NoDup_remove_2 in Hnd. intros Hin. apply Hnd. apply in_or_app. left. exact Hin. }
    rewrite SetValue_absent by assumption.
    rewrite IH; rewrite <- app_assoc; [reflexivity | exact Hnd].
Qed.

(** ** The loops of RecalculateProperties *)

Lemma reset_loop_map (post : IPortableDeviceValues) :
  forall pre : IPortableDeviceValues,
    NoDup (PDV.keys (pre ++ post)) ->
    reset_loop (length post) (length pre) (pre ++ post)
      = pre ++ map (fun p => (fst p, VT_NULL)) post.
Proof.
  induction post as [| [k v] post IH]; intros pre Hnd; simpl; [reflexivity|].
  unfold PDV.GetAt. rewrite nth_error_app2 by lia. rewrite Nat.sub_diag. simpl.
  assert (Hn : ~ In k (PDV.keys pre)).
  { unfold PDV.keys in Hnd. rewrite map_app in Hnd. simpl in Hnd.
    apply NoDup_remove_2 in Hnd. intros Hin. apply Hnd. apply in_or_app. left. exact Hin. }
  rewrite SetValue_in_place by assumption.
  replace (pre ++ (k, VT_NULL) :: post) with ((pre ++ [(k, VT_NULL)]) ++ post)
    by (rewrite <- app_assoc; reflexivity).
  replace (S (length pre)) with (length (pre ++ [(k, VT_NULL)]))
    by (rewrite length_app; simpl; lia).
  rewrite IH.
  - rewrite <- app_assoc. reflexivity.
  - rewrite <- app_assoc. simpl.
    unfold PDV.keys in *. rewrite map_app in *. simpl in *. exact Hnd.
Qed.

Lemma default_loop_map (defaults post : IPortableDeviceValues) :
  forall pre : IPortableDeviceValues,
    NoDup (PDV.keys (pre ++ post)) ->
    (forall k, In k (PDV.keys post) -> PDV.GetValue k defaults <> None) ->
    default_loop (length post) (length pre) defaults (pre ++ post)
      = (S_OK, pre ++ map (fill_default defaults) post).
Proof.
  induction post as [| [k v] post IH]; intros pre Hnd Hdef; simpl; [reflexivity|].
  unfold PDV.GetAt. rewrite nth_error_app2 by lia. rewrite Nat.sub_diag. simpl.
  assert (Hn : ~ In k (PDV.keys pre)).
  { unfold PDV.keys in Hnd. rewrite map_app in Hnd. simpl in Hnd.
    apply NoDup_remove_2 in Hnd. intros Hin. apply Hnd. apply in_or_app. left. exact Hin. }
  assert (Hstep : forall w,
             default_loop (length post) (S (length pre)) defaults (pre ++ (k, w) :: post)
             = (S_OK, pre ++ (k, w) :: map (fill_default defaults) post)).
  { intros w.
    replace (pre ++ (k, w) :: post) with ((pre ++ [(k, w)]) ++ post)
      by (rewrite <- app_assoc; reflexivity).
    replace (S (length pre)) with (length (pre ++ [(k, w)]))
      by (rewrite length_app; simpl; lia).
    rewrite IH.
    - rewrite <- app_assoc. reflexivity.
    - rewrite <- app_assoc. simpl.
      unfold PDV.keys in *. rewrite map_app in *. simpl in *. exact Hnd.
    - intros k' Hk'. apply Hdef. simpl. right. exact Hk'. }
  unfold fill_default at 1. simpl.
  destruct v; simpl; try apply Hstep.
  destruct (PDV.GetValue k defaults) as [dv|] eqn:Hd.
  - rewrite SetValue_in_place by assumption. apply Hstep.
  - exfalso. apply (Hdef k); [simpl; left; reflexivity | exact Hd].
Qed.

Lemma numeric_variant_min (a b : PROPVARIANT) :
  numeric b = true -> numeric (variant_min a b) = true.
Proof. destruct a, b; simpl; congruence. Qed.

Lemma numeric_not_null (v : PROPVARIANT) : numeric v = true -> is_null v = false.
Proof. destruct v; simpl; congruence. Qed.

Lemma numeric_combine (a b : PROPVARIANT) :
  numeric b = true -> numeric (combine a b) = true.
Proof. unfold combine. destruct (is_null a); [auto | apply numeric_variant_min]. Qed.

Lemma fold_sensitivity_ok (key : PROPERTYKEY) (var m : PROPVARIANT)
    (mins : IPortableDeviceValues) :
  PDV.GetValue key mins = Some m ->
  is_null m || numeric m = true ->
  fold_sensitivity key var mins = (S_OK, PDV.SetValue key (combine m var) mins).
Proof.
  intros Hg Hm. unfold fold_sensitivity. rewrite Hg.
  destruct m; simpl in Hm; try discriminate; unfold combine; simpl; try reflexivity;
    destruct var; reflexivity.
Qed.

Lemma client_sensitivity_loop_spec (vals : IPortableDeviceValues) :
  forall mins : IPortableDeviceValues,
    desired_ok (PDV.keys mins) vals ->
    null_or_numeric mins ->
    exists mins',
      client_sensitivity_loop vals mins = (S_OK, mins') /\
      PDV.keys mins' = PDV.keys mins /\
      null_or_numeric mins' /\
      forall key,
        PDV.GetValue key mins' =
          match override_in key vals with
          | Some v => option_map (fun m => combine m v) (PDV.GetValue key mins)
          | None => PDV.GetValue key mins
          end.
Proof.
  induction vals as [| [k v] vals IH]; intros mins [Hnd Hok] Hq.
  - exists mins. simpl. repeat split; auto.
  - simpl in Hnd. inversion Hnd as [| ? ? Hnotin Hnd']; subst.
    assert (Htail : forall ms, PDV.keys ms = PDV.keys mins -> desired_ok (PDV.keys ms) vals).
    { intros ms Hk. split; [exact Hnd'|]. intros k' v' Hin. rewrite Hk. apply Hok. right. exact Hin. }
    assert (Hovk : override_in k vals = None).
    { unfold override_in. apply GetValue_None in Hnotin. rewrite Hnotin. reflexivity. }
    assert (Hov : forall key, key <> k ->
                   override_in key ((k, v) :: vals) = override_in key vals).
    { intros key Hne. unfold override_in. simpl.
      rewrite IsEqualPropertyKey_neq by assumption. reflexivity. }
    destruct (is_null v) eqn:Hnull.
    + (* a cleared value is skipped *)
      destruct (IH mins (Htail mins eq_refl) Hq) as (mins' & Hrun & Hk & Hq' & Hval).
      exists mins'. repeat split; auto.
      * simpl. destruct v; simpl in Hnull; try discriminate. exact Hrun.
      * intros key. rewrite Hval.
        destruct (IsEqualPropertyKey_spec key k) as [-> | Hne].
        -- rewrite Hovk. unfold override_in. simpl. rewrite IsEqualPropertyKey_refl, Hnull.
           reflexivity.
        -- rewrite Hov by assumption. reflexivity.
    + destruct (Hok k v (or_introl eq_refl)) as [Hc | [Hnum Hin]]; [congruence|].
      destruct (PDV.GetValue k mins) as [m|] eqn:Hg;
        [| apply GetValue_None in Hg; contradiction].
      pose proof (fold_sensitivity_ok k v m mins Hg (Hq k m Hg)) as Hfold.
      set (mins1 := PDV.SetValue k (combine m v) mins) in *.
      assert (Hk1 : PDV.keys mins1 = PDV.keys mins)
        by (apply keys_SetValue_present; exact Hin).
      assert (Hq1 : null_or_numeric mins1).
      { intros k' m' Hg'. unfold mins1 in Hg'.
        destruct (IsEqualPropertyKey_spec k k') as [<- | Hne].
        - rewrite GetValue_SetValue_same in Hg'. injection Hg' as <-.
          rewrite numeric_combine by assumption. apply orb_true_r.
        - rewrite GetValue_SetValue_other in Hg' by assumption. eapply Hq; eauto. }
      destruct (IH mins1 (Htail mins1 Hk1) Hq1) as (mins' & Hrun & Hk & Hq' & Hval).
      exists mins'. repeat split; auto.
      * simpl. rewrite Hfold. rewrite SUCCEEDED_S_OK.
        destruct v; simpl in Hnull; try discriminate; exact Hrun.
      * congruence.
      * intros key. rewrite Hval.
        destruct (IsEqualPropertyKey_spec key k) as [-> | Hne].
        -- rewrite Hovk. unfold override_in. simpl. rewrite IsEqualPropertyKey_refl, Hnull.
           unfold mins1. rewrite GetValue_SetValue_same, Hg. reflexivity.
        -- rewrite Hov by assumption. unfold mins1.
           rewrite GetValue_SetValue_other by congruence. reflexivity.
Qed.

Lemma client_loop_frame (clients : CLIENT_MAP) :
  forall cm, registry_frame (snd (client_loop clients cm)) = registry_frame cm.
Proof.
  induction clients as [| [id entry] clients IH]; intros cm; simpl; [reflexivity|].
  destruct (client_sensitivity_loop _ _) as [hr mins].
  destruct (SUCCEEDED hr); [| reflexivity].
  rewrite IH. destruct (_ && _); reflexivity.
Qed.

Lemma client_loop_interval (clients : CLIENT_MAP) :
  forall cm,
    SUCCEEDED (fst (client_loop clients cm)) = true ->
    m_minReportInterval (snd (client_loop clients cm))
      = fold_left interval_step (desired_intervals clients) (m_minReportInterval cm) /\
    m_minReportIntervalExplicitlySet (snd (client_loop clients cm))
      = m_minReportIntervalExplicitlySet cm
        || existsb (fun d => negb (d =? CURRENT_REPORT_INTERVAL_NOT_SET)
                             && (d <? m_minReportInterval cm))
                   (desired_intervals clients).
Proof.
  induction clients as [| [id entry] clients IH]; intros cm.
  - intros _. simpl. rewrite orb_false_r. split; reflexivity.
  - cbn [client_loop].
    destruct (client_sensitivity_loop _ _) as [hr mins].
    destruct (SUCCEEDED hr) eqn:Hs; [| simpl; congruence].
    set (cm1 := set_MinSensitivityValues mins cm).
    change (m_minReportInterval cm) with (m_minReportInterval cm1).
    change (m_minReportIntervalExplicitlySet cm) with (m_minReportIntervalExplicitlySet cm1).
    clearbody cm1.
    unfold desired_intervals. cbn [map fold_left existsb snd].
    fold (desired_intervals clients).
    unfold interval_step at 2.
    destruct (negb (desiredReportInterval entry =? CURRENT_REPORT_INTERVAL_NOT_SET)
              && (desiredReportInterval entry <? m_minReportInterval cm1)) eqn:Hc;
      intros Hok; destruct (IH _ Hok) as [IHm IHf]; rewrite IHm, IHf; simpl.
    + split; [reflexivity|]. rewrite orb_true_r. reflexivity.
    + split; reflexivity.
Qed.

Lemma overrides_not_null (key : PROPERTYKEY) (clients : CLIENT_MAP) :
  Forall (fun v => is_null v = false) (overrides key clients).
Proof.
  unfold overrides. induction clients as [| [id e] clients IH]; simpl; [constructor|].
  apply Forall_app. split; [| exact IH].
  unfold override, override_in. destruct (PDV.GetValue key _) as [v|]; [| constructor].
  destruct (is_null v) eqn:Hn; constructor; [exact Hn | constructor].
Qed.

Lemma fold_combine_not_null (vs : list PROPVARIANT) :
  forall v, is_null v = false -> Forall (fun x => is_null x = false) vs ->
    fold_left combine vs v = fold_left variant_min vs v /\
    is_null (fold_left variant_min vs v) = false.
Proof.
  induction vs as [| x vs IH]; intros v Hv Hall; simpl; [auto|].
  inversion Hall as [| ? ? Hx Hvs]; subst.
  assert (Hn : is_null (variant_min v x) = false)
    by (destruct v, x; simpl in *; congruence).
  replace (combine v x) with (variant_min v x) by (unfold combine; rewrite Hv; reflexivity).
  apply IH; assumption.
Qed.

Lemma clients_ok_keys (supported supported' : list PROPERTYKEY) (clients : CLIENT_MAP) :
  supported = supported' -> clients_ok supported clients -> clients_ok supported' clients.
Proof. intros ->. auto. Qed.

Lemma client_loop_spec (clients : CLIENT_MAP) :
  forall cm,
    clients_ok (PDV.keys (m_spMinSensitivityValues cm)) clients ->
    null_or_numeric (m_spMinSensitivityValues cm) ->
    exists cm',
      client_loop clients cm = (S_OK, cm') /\
      PDV.keys (m_spMinSensitivityValues cm') = PDV.keys (m_spMinSensitivityValues cm) /\
      null_or_numeric (m_spMinSensitivityValues cm') /\
      forall key,
        PDV.GetValue key (m_spMinSensitivityValues cm') =
          option_map (fun m => fold_left combine (overrides key clients) m)
                     (PDV.GetValue key (m_spMinSensitivityValues cm)).
Proof.
  induction clients as [| [id entry] clients IH]; intros cm Hok Hq.
  - exists cm. simpl. repeat split; auto.
    intros key. destruct (PDV.GetValue key _); reflexivity.
  - inversion Hok as [| ? ? Hentry Hrest]; subst. simpl in Hentry.
    destruct (client_sensitivity_loop_spec _ _ Hentry Hq) as (mins1 & Hrun & Hk1 & Hq1 & Hval1).
    set (cm1 := set_MinSensitivityValues mins1 cm).
    set (cm2 := if negb (desiredReportInterval entry =? CURRENT_REPORT_INTERVAL_NOT_SET)
                   && (desiredReportInterval entry <? m_minReportInterval cm1)
                then set_minReportInterval (desiredReportInterval entry) true cm1
                else cm1).
    assert (Hm2 : m_spMinSensitivityValues cm2 = mins1)
      by (unfold cm2; destruct (_ && _); reflexivity).
    destruct (IH cm2) as (cm' & Hrun' & Hk' & Hq' & Hval').
    { rewrite Hm2. eapply clients_ok_keys; [symmetry; exact Hk1 | exact Hrest]. }
    { rewrite Hm2. exact Hq1. }
    exists cm'. repeat split; auto.
    + simpl. rewrite Hrun. rewrite SUCCEEDED_S_OK. exact Hrun'.
    + rewrite Hk', Hm2. exact Hk1.
    + intros key. rewrite Hval', Hm2, Hval1.
      unfold overrides. simpl. fold (overrides key clients).
      unfold override. simpl.
      destruct (override_in key (pDesiredSensitivityValues entry)) as [v|];
        destruct (PDV.GetValue key (m_spMinSensitivityValues cm)); reflexivity.
Qed.

Lemma GetValue_map_values (g : PROPERTYKEY -> PROPVARIANT -> PROPVARIANT)
    (key : PROPERTYKEY) (l : IPortableDeviceValues) :
  PDV.GetValue key (map (fun p => (fst p, g (fst p) (snd p))) l)
    = option_map (g key) (PDV.GetValue key l).
Proof.
  induction l as [| [k v] l IH]; simpl; [reflexivity|].
  destruct (IsEqualPropertyKey_spec key k) as [-> | Hne]; [reflexivity | exact IH].
Qed.

Lemma keys_map_values (g : PROPERTYKEY -> PROPVARIANT -> PROPVARIANT)
    (l : IPortableDeviceValues) :
  PDV.keys (map (fun p => (fst p, g (fst p) (snd p))) l) = PDV.keys l.
Proof. unfold PDV.keys. rewrite map_map. reflexivity. Qed.

Lemma RecalculateProperties_frame (cm : CClientManager) :
  registry_frame (snd (RecalculateProperties cm)) = registry_frame cm.
Proof.
  unfold RecalculateProperties.
  match goal with |- context [client_loop ?c ?x] =>
    pose proof (client_loop_frame c x) as H; destruct (client_loop c x) as [hr cm1] end.
  simpl in H. destruct (SUCCEEDED hr); [| exact H].
  destruct (default_loop _ _ _ _) as [hr2 mins2].
  destruct (_ =? ULONG_MAX); exact H.
Qed.

(** What a successful recalculation leaves in the interval fields. *)
Lemma RecalculateProperties_interval (cm : CClientManager) :
  SUCCEEDED (fst (RecalculateProperties cm)) = true ->
  let m := fold_left interval_step (desired_intervals (m_pClientList cm)) ULONG_MAX in
  m_minReportInterval (snd (RecalculateProperties cm))
    = (if m =? ULONG_MAX then m_defaultReportInterval cm else m) /\
  m_minReportIntervalExplicitlySet (snd (RecalculateProperties cm))
    = existsb (fun d => negb (d =? CURRENT_REPORT_INTERVAL_NOT_SET) && (d <? ULONG_MAX))
              (desired_intervals (m_pClientList cm)).
Proof.
  unfold RecalculateProperties.
  match goal with |- context [client_loop ?c ?x] =>
    pose proof (client_loop_interval c x) as Hi;
    pose proof (client_loop_frame c x) as Hf;
    destruct (client_loop c x) as [hr cm1] end.
  simpl in Hi, Hf.
  destruct (SUCCEEDED hr) eqn:Hs; [| simpl; congruence].
  destruct (Hi eq_refl) as [Hm Hflag].
  unfold registry_frame in Hf. injection Hf as _ _ _ _ Hd _.
  destruct (default_loop _ _ _ _) as [hr2 mins2]. intros _. cbv zeta.
  simpl in Hm, Hflag, Hd.
  change (m_minReportInterval (set_MinSensitivityValues mins2 cm1))
    with (m_minReportInterval cm1).
  rewrite <- Hm.
  destruct (m_minReportInterval cm1 =? ULONG_MAX); simpl; rewrite Hflag, ?Hd; split; reflexivity.
Qed.

(** ** Recalculation establishes the arbitrated settings *)

Lemma defaults_numeric (defaults : IPortableDeviceValues) (key : PROPERTYKEY)
    (v : PROPVARIANT) :
  sensitivity_defaults defaults -> PDV.GetValue key defaults = Some v -> numeric v = true.
Proof.
  intros [_ Hnum] Hg. apply GetValue_In in Hg.
  rewrite Forall_forall in Hnum. exact (Hnum _ Hg).
Qed.

Lemma overrides_numeric (supported : list PROPERTYKEY) (key : PROPERTYKEY)
    (clients : CLIENT_MAP) :
  clients_ok supported clients ->
  Forall (fun v => numeric v = true) (overrides key clients).
Proof.
  unfold overrides. induction clients as [| [id e] clients IH]; intros Hok; simpl;
    [constructor|].
  inversion Hok as [| ? ? [Hnd He] Hrest]; subst. simpl in *.
  apply Forall_app. split; [| auto].
  unfold override, override_in.
  destruct (PDV.GetValue key (pDesiredSensitivityValues e)) as [v|] eqn:Hg; [| constructor].
  destruct (is_null v) eqn:Hn; constructor; [| constructor].
  apply GetValue_In in Hg. destruct (He _ _ Hg) as [Hc | [Hnum _]]; congruence.
Qed.

Lemma numeric_fold_variant_min (vs : list PROPVARIANT) :
  forall v, numeric v = true -> Forall (fun x => numeric x = true) vs ->
    numeric (fold_left variant_min vs v) = true.
Proof.
  induction vs as [| x vs IH]; intros v Hv Hall; simpl; [exact Hv|].
  inversion Hall; subst. apply IH; [apply numeric_variant_min|]; assumption.
Qed.

Lemma arbitrated_numeric (defaults : IPortableDeviceValues) (key : PROPERTYKEY)
    (clients : CLIENT_MAP) (v : PROPVARIANT) :
  sensitivity_defaults defaults ->
  clients_ok (PDV.keys defaults) clients ->
  arbitrated_sensitivity defaults key clients = Some v ->
  numeric v = true.
Proof.
  intros Hd Hok. unfold arbitrated_sensitivity.
  pose proof (overrides_numeric _ key _ Hok) as Hn.
  destruct (overrides key clients) as [| x xs].
  - apply defaults_numeric. exact Hd.
  - intros [= <-]. inversion Hn; subst. apply numeric_fold_variant_min; assumption.
Qed.

Lemma RecalculateProperties_establishes (cm : CClientManager) :
  sensitivity_defaults (m_spDefaultSensitivityValues cm) ->
  PDV.keys (m_spMinSensitivityValues cm) = PDV.keys (m_spDefaultSensitivityValues cm) ->
  clients_ok (PDV.keys (m_spDefaultSensitivityValues cm)) (m_pClientList cm) ->
  fst (RecalculateProperties cm) = S_OK /\ registry_inv (snd (RecalculateProperties cm)).
Proof.
  intros Hd Hk Hok.
  pose proof (RecalculateProperties_frame cm) as Hframe.
  pose proof (RecalculateProperties_interval cm) as Hint.
  assert (Hgoal : fst (RecalculateProperties cm) = S_OK /\
                  PDV.keys (m_spMinSensitivityValues (snd (RecalculateProperties cm)))
                    = PDV.keys (m_spMinSensitivityValues cm) /\
                  forall key, In key (PDV.keys (m_spDefaultSensitivityValues cm)) ->
                    PDV.GetValue key (m_spMinSensitivityValues (snd (RecalculateProperties cm)))
                    = arbitrated_sensitivity (m_spDefaultSensitivityValues cm) key
                                             (m_pClientList cm)).
  { clear Hframe Hint. unfold RecalculateProperties.
    assert (Hnd : NoDup (PDV.keys (m_spMinSensitivityValues cm)))
      by (rewrite Hk; exact (proj1 Hd)).
    pose proof (reset_loop_map (m_spMinSensitivityValues cm) [] Hnd) as Hreset.
    simpl in Hreset. unfold PDV.GetCount. rewrite Hreset.
    set (mins1 := map (fun p => (fst p, VT_NULL)) (m_spMinSensitivityValues cm)).
    assert (Hk1 : PDV.keys mins1 = PDV.keys (m_spMinSensitivityValues cm))
      by (apply (keys_map_values (fun _ _ => VT_NULL))).
    assert (Hv1 : forall key, PDV.GetValue key mins1
                   = option_map (fun _ => VT_NULL)
                                (PDV.GetValue key (m_spMinSensitivityValues cm)))
      by (intros key; apply (GetValue_map_values (fun _ _ => VT_NULL))).
    set (cm1 := set_minReportInterval ULONG_MAX false (set_MinSensitivityValues mins1 cm)).
    destruct (client_loop_spec (m_pClientList cm1) cm1) as (cm2 & Hrun & Hk2 & Hq2 & Hv2).
    { simpl. rewrite Hk1, Hk. exact Hok. }
    { simpl. intros k m Hg. rewrite Hv1 in Hg.
      destruct (PDV.GetValue k (m_spMinSensitivityValues cm)); simpl in Hg;
        [injection Hg as <-; reflexivity | discriminate]. }
    rewrite Hrun. rewrite SUCCEEDED_S_OK.
    pose proof (client_loop_frame (m_pClientList cm1) cm1) as Hf.
    rewrite Hrun in Hf. simpl in Hf. unfold registry_frame in Hf.
    injection Hf as Hc2 _ _ Hd2 _ _.
    simpl in Hk2.
    assert (Hlen : length (m_spMinSensitivityValues cm)
                   = length (m_spMinSensitivityValues cm2)).
    { rewrite <- (length_map fst (m_spMinSensitivityValues cm)).
      rewrite <- (length_map fst (m_spMinSensitivityValues cm2)).
      fold (PDV.keys (m_spMinSensitivityValues cm)).
      fold (PDV.keys (m_spMinSensitivityValues cm2)). congruence. }
    rewrite Hlen.
    pose proof (default_loop_map (m_spDefaultSensitivityValues cm2)
                                 (m_spMinSensitivityValues cm2) []) as Hdef.
    simpl in Hdef. rewrite Hdef; clear Hdef.
    2: { rewrite Hk2, Hk1. exact Hnd. }
    2: { intros k Hin. rewrite Hk2, Hk1, Hk in Hin. rewrite Hd2.
         intros Hnone. apply GetValue_None in Hnone. contradiction. }
    assert (Hres : forall m, m_spMinSensitivityValues
                     (if m_minReportInterval (set_MinSensitivityValues m cm2) =? ULONG_MAX
                      then set_minReportInterval
                             (m_defaultReportInterval (set_MinSensitivityValues m cm2))
                             (m_minReportIntervalExplicitlySet (set_MinSensitivityValues m cm2))
                             (set_MinSensitivityValues m cm2)
                      else set_MinSensitivityValues m cm2) = m)
      by (intros m; destruct (_ =? ULONG_MAX); reflexivity).
    split; [reflexivity|]. cbn [fst snd]. rewrite Hres.
    split.
    - unfold fill_default.
      rewrite (keys_map_values
                 (fun k v => if is_null v
                             then match PDV.GetValue k (m_spDefaultSensitivityValues cm2) with
                                  | Some d => d | None => v end
                             else v)).
      rewrite Hk2. exact Hk1.
    - intros key Hin. unfold fill_default.
      rewrite (GetValue_map_values
                 (fun k v => if is_null v
                             then match PDV.GetValue k (m_spDefaultSensitivityValues cm2) with
                                  | Some d => d | None => v end
                             else v)).
      rewrite Hv2. simpl. rewrite Hv1.
      destruct (PDV.GetValue key (m_spMinSensitivityValues cm)) as [m0|] eqn:Hg0.
      2: { apply GetValue_None in Hg0. rewrite Hk in Hg0. contradiction. }
      simpl. rewrite Hd2. unfold arbitrated_sensitivity.
      pose proof (overrides_not_null key (m_pClientList cm)) as Hnn.
      destruct (overrides key (m_pClientList cm)) as [| v vs]; simpl.
      + destruct (PDV.GetValue key (m_spDefaultSensitivityValues cm)) as [dv|] eqn:Hgd;
          [reflexivity|].
        apply GetValue_None in Hgd. contradiction.
      + inversion Hnn as [| ? ? Hv Hvs]; subst.
        replace (combine VT_NULL v) with v by reflexivity.
        destruct (fold_combine_not_null vs v Hv Hvs) as [-> Hnull].
        rewrite Hnull. reflexivity. }
  destruct Hgoal as (Hhr & Hkeys & Hvals).
  split; [exact Hhr|].
  rewrite Hhr in Hint. specialize (Hint eq_refl). cbv zeta in Hint. destruct Hint as [Hm Hfl].
  unfold registry_frame in Hframe. injection Hframe as Hc _ _ Hdf Hdi _.
  unfold registry_inv. rewrite Hc, Hdf, Hdi.
  repeat split; try (apply Hd); auto.
  congruence.
Qed.

(** ** The registry invariant *)

Lemma find_In (k : IWDFFile) (e : CLIENT_ENTRY) (m : CLIENT_MAP) :
  ClientMap.find k m = Some e -> In (k, e) m.
Proof.
  induction m as [| [k' e'] m IH]; simpl; [discriminate|].
  destruct (Z.eqb_spec k k') as [-> | Hne].
  - intros [= ->]. left. reflexivity.
  - intros H. right. auto.
Qed.

Lemma In_assign (p : IWDFFile * CLIENT_ENTRY) (k : IWDFFile) (e : CLIENT_ENTRY)
    (m : CLIENT_MAP) :
  In p (ClientMap.assign k e m) -> p = (k, e) \/ In p m.
Proof.
  induction m as [| [k' e'] m IH]; simpl.
  - intros [<- | []]. left. reflexivity.
  - destruct (k <? k'); [simpl; intuition|].
    destruct (k =? k'); simpl; intuition.
Qed.

Lemma In_erase (p : IWDFFile * CLIENT_ENTRY) (k : IWDFFile) (m : CLIENT_MAP) :
  In p (ClientMap.erase k m) -> In p m.
Proof.
  induction m as [| [k' e'] m IH]; simpl; [tauto|].
  destruct (k =? k'); simpl; intuition.
Qed.


Lemma find_assign_other (k k' : IWDFFile) (e : CLIENT_ENTRY) (m : CLIENT_MAP) :
  k <> k' -> ClientMap.find k' (ClientMap.assign k e m) = ClientMap.find k' m.
Proof.
  intros Hne. induction m as [| [k0 e0] m IH]; simpl.
  - destruct (Z.eqb_spec k' k); [congruence | reflexivity].
  - destruct (Z.ltb_spec k k0); simpl.
    + destruct (Z.eqb_spec k' k); [congruence | reflexivity].
    + destruct (Z.eqb_spec k k0) as [-> | Hk]; simpl.
      * destruct (Z.eqb_spec k' k0); [congruence | reflexivity].
      * destruct (Z.eqb_spec k' k0); [reflexivity | exact IH].
Qed.

Lemma clients_ok_assign (supported : list PROPERTYKEY) (k : IWDFFile) (e : CLIENT_ENTRY)
    (m : CLIENT_MAP) :
  desired_ok supported (pDesiredSensitivityValues e) ->
  clients_ok supported m -> clients_ok supported (ClientMap.assign k e m).
Proof.
  unfold clients_ok. rewrite !Forall_forall. intros He Hm p Hin.
  apply In_assign in Hin. destruct Hin as [-> | Hin]; [exact He | auto].
Qed.

Lemma clients_ok_erase (supported : list PROPERTYKEY) (k : IWDFFile) (m : CLIENT_MAP) :
  clients_ok supported m -> clients_ok supported (ClientMap.erase k m).
Proof.
  unfold clients_ok. rewrite !Forall_forall. intros Hm p Hin.
  apply In_erase in Hin. auto.
Qed.

Lemma clients_ok_find (supported : list PROPERTYKEY) (k : IWDFFile) (e : CLIENT_ENTRY)
    (m : CLIENT_MAP) :
  clients_ok supported m -> ClientMap.find k m = Some e ->
  desired_ok supported (pDesiredSensitivityValues e).
Proof.
  unfold clients_ok. rewrite Forall_forall. intros Hm Hf.
  exact (Hm _ (find_In _ _ _ Hf)).
Qed.

Lemma In_SetValue (p : PROPERTYKEY * PROPVARIANT) (k : PROPERTYKEY) (v : PROPVARIANT)
    (l : IPortableDeviceValues) :
  In p (PDV.SetValue k v l) -> p = (k, v) \/ In p l.
Proof.
  induction l as [| [k0 v0] l IH]; simpl.
  - intros [<- | []]. left. reflexivity.
  - destruct (IsEqualPropertyKey_spec k k0) as [-> | Hne]; simpl; intuition.
Qed.

(** A change of the client list followed by a recalculation keeps the
    invariant, and the recalculation succeeds. *)
Lemma recalculated_inv (cm : CClientManager) (clients : CLIENT_MAP) :
  registry_inv cm ->
  clients_ok (PDV.keys (m_spDefaultSensitivityValues cm)) clients ->
  forall n s,
    fst (RecalculateProperties
           (set_SubscriberCount s (set_ClientCount n (set_ClientList clients cm)))) = S_OK /\
    registry_inv
      (snd (RecalculateProperties
              (set_SubscriberCount s (set_ClientCount n (set_ClientList clients cm))))).
Proof.
  intros (Hd & Hk & _) Hok n s.
  apply RecalculateProperties_establishes; assumption.
Qed.

Lemma recalculated_inv' (cm : CClientManager) (clients : CLIENT_MAP) :
  registry_inv cm ->
  clients_ok (PDV.keys (m_spDefaultSensitivityValues cm)) clients ->
  fst (RecalculateProperties (set_ClientList clients cm)) = S_OK /\
  registry_inv (snd (RecalculateProperties (set_ClientList clients cm))).
Proof.
  intros (Hd & Hk & _) Hok.
  apply RecalculateProperties_establishes; assumption.
Qed.

Lemma validated_value_ok (cm : CClientManager) (key : PROPERTYKEY) (var : PROPVARIANT) :
  registry_inv cm ->
  SUCCEEDED (validate_sensitivity (m_spMinSensitivityValues cm) key var) = true ->
  is_null var = true \/
  (numeric var = true /\ In key (PDV.keys (m_spDefaultSensitivityValues cm))).
Proof.
  intros (Hd & Hk & Hok & Hv & _) Hval. unfold validate_sensitivity in Hval.
  destruct (PDV.GetValue key (m_spMinSensitivityValues cm)) as [varTemp|] eqn:Hg.
  2: { rewrite FAILED_WIN32 in Hval by (unfold ERROR_NOT_FOUND; lia). discriminate. }
  assert (Hin : In key (PDV.keys (m_spDefaultSensitivityValues cm)))
    by (rewrite <- Hk; eapply GetValue_Some_key; eauto).
  assert (Hnum : numeric varTemp = true).
  { rewrite (Hv key Hin) in Hg. eapply arbitrated_numeric; eauto. }
  destruct ((negb (vt var =? vt varTemp) && negb (vt var =? vt VT_NULL)) || _ || _) eqn:Hc;
    [rewrite FAILED_E_INVALIDARG in Hval; discriminate|].
  apply orb_false_iff in Hc. destruct Hc as [Hc _].
  apply orb_false_iff in Hc. destruct Hc as [Hc _].
  apply andb_false_iff in Hc. destruct Hc as [Hc | Hc].
  - apply negb_false_iff, Z.eqb_eq in Hc. right. split; [| exact Hin].
    destruct varTemp; simpl in Hnum; try discriminate;
      destruct var; simpl in Hc; try discriminate; reflexivity.
  - apply negb_false_iff, Z.eqb_eq in Hc. left.
    destruct var; simpl in Hc; try discriminate; reflexivity.
Qed.

Lemma set_desired_sensitivity_ok (supported : list PROPERTYKEY) (id : IWDFFile)
    (key : PROPERTYKEY) (var : PROPVARIANT) (clients : CLIENT_MAP) :
  (is_null var = true \/ (numeric var = true /\ In key supported)) ->
  clients_ok supported clients ->
  clients_ok supported (set_desired_sensitivity id key var clients).
Proof.
  intros Hvar Hok. unfold set_desired_sensitivity. apply clients_ok_assign; [| exact Hok].
  simpl.
  assert (He : desired_ok supported
                 (pDesiredSensitivityValues
                    (match ClientMap.find id clients with
                     | Some e => e
                     | None => mkEntry false [] 0
                     end))).
  { destruct (ClientMap.find id clients) as [e|] eqn:Hf.
    - eapply clients_ok_find; eauto.
    - simpl. split; [constructor | intros ? ? []]. }
  destruct He as [Hnd Hvals]. split.
  - apply NoDup_keys_SetValue. exact Hnd.
  - intros k v Hin. apply In_SetValue in Hin. destruct Hin as [[= -> ->] | Hin]; auto.
Qed.

Lemma sensitivity_items_ok (cm : CClientManager) (id : IWDFFile)
    (vals : IPortableDeviceValues) :
  registry_inv cm ->
  forall clients results fError,
    clients_ok (PDV.keys (m_spDefaultSensitivityValues cm)) clients ->
    clients_ok (PDV.keys (m_spDefaultSensitivityValues cm))
      (fst (fst (sensitivity_items id (m_spMinSensitivityValues cm) vals
                                   clients results fError))).
Proof.
  intros Hinv. induction vals as [| [k v] vals IH]; intros clients results fError Hok; simpl.
  - exact Hok.
  - destruct (SUCCEEDED (validate_sensitivity (m_spMinSensitivityValues cm) k v)) eqn:Hv.
    + apply IH. apply set_desired_sensitivity_ok; [| exact Hok].
      eapply validated_value_ok; eauto.
    + apply IH. exact Hok.
Qed.

(** Every request keeps the invariant. *)
Lemma serve_inv (r : request) (cm : CClientManager) :
  registry_inv cm -> registry_inv (snd (serve r cm)).
Proof.
  intros Hinv. pose proof Hinv as (Hd & Hk & Hok & _).
  destruct r as [id | id | id | id | id v | id vals]; simpl.
  - unfold Connect. destruct (id =? nullptr); [exact Hinv|].
    destruct (negb _); [exact Hinv|].
    destruct (ClientMap.find id (m_pClientList cm)); [exact Hinv|].
    apply (RecalculateProperties_establishes
             (set_ClientCount _ (set_ClientList _ cm))); simpl; auto.
    apply clients_ok_assign; [| exact Hok]. simpl. split; [constructor | intros ? ? []].
  - unfold Disconnect. destruct (id =? nullptr); [exact Hinv|].
    destruct (m_ClientCount cm =? 0); [exact Hinv|].
    destruct (negb _); [exact Hinv|].
    destruct (ClientMap.find id (m_pClientList cm)) as [e|]; [| exact Hinv].
    destruct (fSubscribed e);
      apply RecalculateProperties_establishes; simpl; auto; apply clients_ok_erase; exact Hok.
  - unfold Subscribe. destruct (id =? nullptr); [exact Hinv|].
    destruct (ClientMap.find id (m_pClientList cm)) as [e|] eqn:Hf; [| exact Hinv].
    destruct (fSubscribed e); [exact Hinv|].
    apply RecalculateProperties_establishes; simpl; auto.
    apply clients_ok_assign; [| exact Hok]. simpl. eapply clients_ok_find; eauto.
  - unfold Unsubscribe. destruct (id =? nullptr); [exact Hinv|].
    destruct (ClientMap.find id (m_pClientList cm)) as [e|] eqn:Hf; [| exact Hinv].
    destruct (negb (fSubscribed e)); [exact Hinv|].
    apply RecalculateProperties_establishes; simpl; auto.
    apply clients_ok_assign; [| exact Hok]. simpl. eapply clients_ok_find; eauto.
  - unfold SetDesiredReportInterval. destruct (id =? nullptr); [exact Hinv|].
    destruct (_ && _); [exact Hinv|].
    destruct (ClientMap.find id (m_pClientList cm)) as [e|] eqn:Hf; [| exact Hinv].
    apply RecalculateProperties_establishes; simpl; auto.
    apply clients_ok_assign; [| exact Hok]. simpl. eapply clients_ok_find; eauto.
  - unfold SetDesiredChangeSensitivity. destruct (id =? nullptr); [exact Hinv|].
    destruct (ClientMap.find id (m_pClientList cm)) as [e|] eqn:Hf; [| exact Hinv].
    pose proof (sensitivity_items_ok cm id vals Hinv (m_pClientList cm) [] false Hok) as Hitems.
    destruct (sensitivity_items _ _ _ _ _ _) as [[clients results] fError]. simpl in Hitems.
    pose proof (RecalculateProperties_establishes (set_ClientList clients cm) Hd Hk Hitems)
      as [_ Hres].
    destruct (RecalculateProperties (set_ClientList clients cm)) as [hr cm']. exact Hres.
Qed.

Lemma Initialize_inv (D M : ULONG) (defaults : IPortableDeviceValues) :
  sensitivity_defaults defaults ->
  registry_inv (snd (Initialize D M defaults CClientManager_new)) /\
  m_spDefaultSensitivityValues (snd (Initialize D M defaults CClientManager_new)) = defaults /\
  m_defaultReportInterval (snd (Initialize D M defaults CClientManager_new)) = D.
Proof.
  intros Hd. unfold Initialize, CopyValues. rewrite SUCCEEDED_S_OK. simpl.
  rewrite (CopyValues_from_fresh defaults []) by (simpl; exact (proj1 Hd)). simpl.
  split; [| split; reflexivity].
  unfold registry_inv. simpl. repeat split; try apply Hd.
  constructor.
Qed.

(** Reachable states satisfy the invariant and keep the configured defaults. *)
Lemma reachable_inv (D M : ULONG) (defaults : IPortableDeviceValues) (cm : CClientManager) :
  sensitivity_defaults defaults ->
  reachable D M defaults cm ->
  registry_inv cm /\ m_spDefaultSensitivityValues cm = defaults
  /\ m_defaultReportInterval cm = D.
Proof.
  intros Hd Hr. induction Hr as [| r cm Hr IH].
  - apply Initialize_inv. exact Hd.
  - destruct IH as (Hinv & Hdef & Hdi). split; [apply serve_inv; exact Hinv|].
    assert (Hframe : m_spDefaultSensitivityValues (snd (serve r cm))
                       = m_spDefaultSensitivityValues cm
                     /\ m_defaultReportInterval (snd (serve r cm))
                       = m_defaultReportInterval cm).
    { assert (Hrec : forall x, m_spDefaultSensitivityValues (snd (RecalculateProperties x))
                                 = m_spDefaultSensitivityValues x
                               /\ m_defaultReportInterval (snd (RecalculateProperties x))
                                 = m_defaultReportInterval x).
      { intros x. pose proof (RecalculateProperties_frame x) as Hf.
        unfold registry_frame in Hf. injection Hf as _ _ _ H4 H5 _. auto. }
      destruct r as [id | id | id | id | id v | id vals]; simpl.
      1: unfold Connect.
      2: unfold Disconnect.
      3: unfold Subscribe.
      4: unfold Unsubscribe.
      5: unfold SetDesiredReportInterval.
      1-5: repeat (match goal with
                   | |- context [if ?b then _ else _] => destruct b
                   | |- context [match ?x with Some _ => _ | None => _ end] => destruct x
                   end; try (split; reflexivity));
           exact (Hrec _).
      - unfold SetDesiredChangeSensitivity.
        destruct (id =? nullptr); [split; reflexivity|].
        destruct (ClientMap.find id (m_pClientList cm)); [| split; reflexivity].
        destruct (sensitivity_items _ _ _ _ _ _) as [[clients results] fError].
        pose proof (Hrec (set_ClientList clients cm)) as H.
        destruct (RecalculateProperties (set_ClientList clients cm)). exact H. }
    destruct Hframe as [-> ->]. auto.
Qed.

(** ** C3: arbitrated change sensitivity *)





(** ** C2: arbitrated report interval *)

Lemma interval_step_min (l : list ULONG) :
  forall m, fold_left interval_step l m
            = fold_left Z.min (filter (fun v => negb (v =? CURRENT_REPORT_INTERVAL_NOT_SET)) l) m.
Proof.
  induction l as [| d l IH]; intros m; simpl; [reflexivity|].
  rewrite IH. unfold interval_step.
  destruct (negb (d =? CURRENT_REPORT_INTERVAL_NOT_SET)); simpl; [| reflexivity].
  f_equal. destruct (Z.ltb_spec d m); lia.
Qed.

Lemma fold_min_le (l : list Z) : forall m, fold_left Z.min l m <= m.
Proof.
  induction l as [| d l IH]; intros m; simpl; [lia|].
  specialize (IH (Z.min m d)). lia.
Qed.

(** Away from the value [ULONG_MAX], the interval fields are what the
    specification says: the minimum of the explicit intervals or the default,
    and a flag that tells whether some client asked for an interval >= 1. *)
Lemma code_interval_meets_spec (D : ULONG) (clients : CLIENT_MAP) :
  Forall (fun d => 0 <= d < ULONG_MAX) (desired_intervals clients) ->
  code_min_report_interval D clients = spec_min_report_interval D clients /\
  code_explicit_flag clients = spec_explicit_flag clients.
Proof.
  intros Hr. split.
  - unfold code_min_report_interval, spec_min_report_interval, explicit_intervals.
    fold (desired_intervals clients). rewrite interval_step_min.
    assert (Hf : Forall (fun d => 0 <= d < ULONG_MAX)
                   (filter (fun v => negb (v =? CURRENT_REPORT_INTERVAL_NOT_SET))
                           (desired_intervals clients))).
    { rewrite Forall_forall in *. intros d Hd. apply filter_In in Hd. apply Hr, Hd. }
    destruct (filter (fun v => negb (v =? CURRENT_REPORT_INTERVAL_NOT_SET))
                     (desired_intervals clients)) as [| v vs]; simpl; [reflexivity|].
    inversion Hf as [| ? ? Hv _]; subst.
    replace (Z.min ULONG_MAX v) with v by lia.
    pose proof (fold_min_le vs v).
    destruct (Z.eqb_spec (fold_left Z.min vs v) ULONG_MAX); [lia | reflexivity].
  - unfold code_explicit_flag, spec_explicit_flag, desired_intervals in *.
    induction clients as [| [id e] clients IH]; simpl; [reflexivity|].
    inversion Hr as [| ? ? Hd Hrest]; subst. simpl in Hd.
    rewrite (IH Hrest). f_equal. unfold CURRENT_REPORT_INTERVAL_NOT_SET.
    destruct (Z.eqb_spec (desiredReportInterval e) 0), (Z.ltb_spec (desiredReportInterval e) ULONG_MAX),
             (Z.leb_spec 1 (desiredReportInterval e)); simpl; try reflexivity; lia.
Qed.

(** In every reachable state without a desired interval of [ULONG_MAX] (or
    beyond 32 bits), the arbitrated interval and the flag are as specified. *)
Lemma reachable_interval (D M : ULONG) (defaults : IPortableDeviceValues)
    (cm : CClientManager) :
  sensitivity_defaults defaults ->
  reachable D M defaults cm ->
  Forall (fun d => 0 <= d < ULONG_MAX) (desired_intervals (m_pClientList cm)) ->
  m_minReportInterval cm = spec_min_report_interval D (m_pClientList cm) /\
  m_minReportIntervalExplicitlySet cm = spec_explicit_flag (m_pClientList cm).
Proof.
  intros Hd Hr Hrange.
  destruct (reachable_inv D M defaults cm Hd Hr) as ((_ & _ & _ & _ & Hm & Hf) & _ & Hdi).
  destruct (code_interval_meets_spec D _ Hrange) as [E1 E2].
  rewrite Hm, Hf, Hdi. auto.
Qed.

(** C2.  Client 5 connects and sets a desired report interval of 4294967295 ms
    ([ULONG_MAX]); the call succeeds.  The minimum over the explicit intervals
    is 4294967295 and a client has an interval >= 1, yet the arbitrated
    interval is the default (1000) and the explicit flag is not set, so the
    derived mode is [Polling]: the recalculation starts its running minimum at
    [ULONG_MAX] and only takes a strictly smaller value. *)
Theorem interval_of_ULONG_MAX_is_lost :
  let cm := snd (SetDesiredReportInterval 5 ULONG_MAX (snd (Connect 5 example_registry))) in
  fst (SetDesiredReportInterval 5 ULONG_MAX (snd (Connect 5 example_registry))) = S_OK /\
  explicit_intervals (m_pClientList cm) = [4294967295] /\
  spec_min_report_interval (m_defaultReportInterval cm) (m_pClientList cm) = 4294967295 /\
  m_minReportInterval cm = 1000 /\
  spec_explicit_flag (m_pClientList cm) = true /\
  m_minReportIntervalExplicitlySet cm = false /\
  GetDataUpdateMode cm = DataUpdateModePolling.
Proof.
  cbv zeta. repeat split.
Qed.

(** ** C5: batches are settled item by item *)







